(** * Placeholder Forge: the image-generation pipeline

    A shallow embedding of the script part of the two page components of
    the repository:

    - [app/pages/index.vue], the plain generator ([pages] below);
    - the second component, which adds the RAM safeguard, the target file
      size and [inflateBlob] ([forge] below).

    Numbers that the code only uses as integers (counts, pixel sizes, byte
    counts) are [Z]; the count field of the page can also hold a
    fraction, for which the loop runs one unit more than the whole part,
    and no statement below relies on counts being whole beyond what it
    says.  [Math.random()] and the values computed from it are exact
    rationals ([Q]); every concrete draw used below is a dyadic fraction,
    on which binary64 and exact arithmetic agree.  The one sum that is
    not floored, the degrees of a coordinate, is rounded by the code and
    exact here: bounds on it are stated so that they hold for both.  The browser and the three libraries the page calls
    (canvas encoder, piexifjs, faker, object URLs) are an interface,
    [Platform]; the archive written by JSZip is the finite map from entry
    name to content that [zip.file] maintains.

    The page is single threaded.  While [generateImages] is suspended at
    an [await], the only control the run reacts to is the Cancel button;
    the clicks are given as a schedule [clicks i] (a click is delivered
    while unit [i], counted from 0, is suspended; every [await] of a unit
    lies between its rendering and its push).  The other settings are
    not edited during a run, and the platform calls answer (the one
    exception the code itself can raise, destructuring an [undefined]
    preset in [pickSize], is kept: a run either returns or throws). *)

From Stdlib Require Import ZArith QArith Qabs Qround Ascii Strings.Byte.
From stdpp Require Import gmap strings list pretty.

Local Open Scope Z_scope.

(** ** Data model *)

Inductive Format := jpg | png.

Definition Format_eqb (a b : Format) : bool :=
  match a, b with
  | jpg, jpg | png, png => true
  | _, _ => false
  end.

(** The text of [format.value], as interpolated into file names. *)
Definition formatText (f : Format) : string :=
  match f with jpg => "jpg" | png => "png" end.

(** [format.value === "jpg" ? "image/jpeg" : "image/png"] *)
Definition mimeOf (f : Format) : string :=
  if Format_eqb f jpg then "image/jpeg" else "image/png".

Record Blob := mkBlob { blob_bytes : list byte; blob_type : string }.

Definition blob_size (b : Blob) : Z := Z.of_nat (length (blob_bytes b)).

(** A [data:] URL: the media type and the bytes it carries. *)
Record DataURL := mkDataURL { url_type : string; url_bytes : list byte }.

(** The three rationals [[deg,1],[min,1],[sec,100]] of an EXIF angle. *)
Definition Rational : Type := Z * Z.
Definition Dms : Type := list Rational.

Record ExifObj := mkExif {
  Make : string;
  Model : string;
  Software : string;
  DateTimeOriginal : string;
  GPSLatitudeRef : string;
  GPSLatitude : Dms;
  GPSLongitudeRef : string;
  GPSLongitude : Dms
}.

Record GenImg := mkGenImg {
  name : string;
  blob : Blob;
  url : string;
  exif : option ExifObj;
  uuid : string;
  img_width : Z;
  img_height : Z
}.

(** What is painted on the canvas before it is encoded. *)
Inductive DrawOp :=
| FillRect (fillStyle : string) (x y w h : Z)
| FillText (fillStyle font align baseline : string) (alpha : Q)
           (text : string) (x y : Q).

Record Canvas := mkCanvas {
  canvas_width : Z;
  canvas_height : Z;
  canvas_ops : list DrawOp
}.

(** ** The platform

    Every call of a random primitive takes the next tick of one global
    call counter; the value returned at a tick is arbitrary. *)
Class Platform := {
  Math_random : nat -> Q;
  randomUUID_head : nat -> string;            (* crypto.randomUUID().split("-")[0] *)
  faker_company_name : nat -> string;
  faker_commerce_productName : nat -> string;
  faker_date_recent : nat -> string;          (* .toISOString().slice(0, 19).replace("T", " ") *)
  createObjectURL : nat -> string;
  toDataURL : Canvas -> string -> DataURL;    (* canvas.toDataURL(mime, 0.9) *)
  piexif_degToDmsRational : Q -> Dms;
  piexif_dump : ExifObj -> list byte;
  piexif_insert : list byte -> DataURL -> DataURL
}.

(** [Math.random()] answers in the half-open unit interval. *)
Definition unit_draws `{Platform} : Prop :=
  forall k : nat, (0 <= Math_random k)%Q /\ (Math_random k < 1)%Q.

(** ** Reactive state *)

Record State := mkState {
  count : Z;
  format : Format;
  randomSize : bool;
  width : Z;
  height : Z;
  withExif : bool;
  bgColor : option string;        (* [None] is [null]; [Some ""] is falsy too *)
  targetSize : Z;                 (* 0 = auto, else bytes; unused by [pages] *)
  isGenerating : bool;
  cancelRequested : bool;
  stepIdx : Z;
  images : list GenImg
}.

Definition set_count (c : Z) (s : State) : State :=
  mkState c (format s) (randomSize s) (width s) (height s) (withExif s)
          (bgColor s) (targetSize s) (isGenerating s) (cancelRequested s)
          (stepIdx s) (images s).

Definition set_isGenerating (b : bool) (s : State) : State :=
  mkState (count s) (format s) (randomSize s) (width s) (height s) (withExif s)
          (bgColor s) (targetSize s) b (cancelRequested s)
          (stepIdx s) (images s).

Definition set_cancelRequested (b : bool) (s : State) : State :=
  mkState (count s) (format s) (randomSize s) (width s) (height s) (withExif s)
          (bgColor s) (targetSize s) (isGenerating s) b
          (stepIdx s) (images s).

Definition set_stepIdx (k : Z) (s : State) : State :=
  mkState (count s) (format s) (randomSize s) (width s) (height s) (withExif s)
          (bgColor s) (targetSize s) (isGenerating s) (cancelRequested s)
          k (images s).

Definition set_images (l : list GenImg) (s : State) : State :=
  mkState (count s) (format s) (randomSize s) (width s) (height s) (withExif s)
          (bgColor s) (targetSize s) (isGenerating s) (cancelRequested s)
          (stepIdx s) l.

(** ** Constants *)

Definition MAX_RAM_BYTES : Z := 500 * 1024 * 1024.

Definition targetSizeItems : list Z :=
  [0; 1 * 1024 * 1024; 5 * 1024 * 1024; 10 * 1024 * 1024].

Definition landscapeSizes : list (Z * Z) :=
  [(1920, 1080); (1280, 720); (3840, 2160); (2560, 1440)].

Definition portraitSizes : list (Z * Z) :=
  [(1080, 1920); (720, 1280); (2160, 3840); (1440, 2560)].

(** ** RAM safeguard ([forge] only) *)

(** [targetSize.value || 300 * 1024] *)
Definition estimatedImageSize (s : State) : Z :=
  if targetSize s =? 0 then 300 * 1024 else targetSize s.

Definition maxCountAllowed (s : State) : Z :=
  Z.max 1 (MAX_RAM_BYTES / estimatedImageSize s).

Definition totalEstimatedBytes (s : State) : Z :=
  count s * estimatedImageSize s.

Definition isOverRamLimit (s : State) : bool :=
  MAX_RAM_BYTES <? totalEstimatedBytes s.

(** The body of [watch([targetSize, count], ...)]. *)
Definition enforceMaxCount (s : State) : State :=
  if maxCountAllowed s <? count s then set_count (maxCountAllowed s) s else s.

(** ** Helpers *)

(** Computations that draw from the random primitives thread the call
    counter. *)
Definition Rand (A : Type) : Type := nat -> A * nat.

Definition ret {A} (a : A) : Rand A := fun t => (a, t).

Definition bind {A B} (m : Rand A) (f : A -> Rand B) : Rand B :=
  fun t => let (a, t') := m t in f a t'.

Notation "'let*' x ':=' m 'in' k" := (bind m (fun x => k))
  (at level 10, x name, m at level 100, k at level 200).

(** One call of a random primitive. *)
Definition draw {A} (oracle : nat -> A) : Rand A := fun t => (oracle t, S t).

Definition Qgtb (a b : Q) : bool := negb (Qle_bool a b).

(** [Math.round]: to the nearest integer, halves upwards. *)
Definition Math_round (q : Q) : Z := Qfloor (q + (1 # 2)).

Section Generator.
Context `{Platform}.

Definition randInt (min max : Z) : Rand Z :=
  let* r := draw Math_random in
  ret (Qfloor (r * inject_Z (max - min + 1)) + min).

Definition randomOffset : Rand Z :=
  let* r := draw Math_random in
  ret (Qfloor (r * 101) - 50).

(** [arr[Math.floor(Math.random() * arr.length)]]; [None] is [undefined]. *)
Definition pickEntry (arr : list (Z * Z)) : Rand (option (Z * Z)) :=
  let* r := draw Math_random in
  let k := Qfloor (r * inject_Z (Z.of_nat (length arr))) in
  ret (if k <? 0 then None else arr !! Z.to_nat k).

(** [None]: destructuring [undefined] throws. *)
Definition pickSize (s : State) : Rand (option (Z * Z)) :=
  if randomSize s then
    let* r := draw Math_random in
    let* base := (if Qgtb r (1 # 2) then pickEntry landscapeSizes
                  else pickEntry portraitSizes) in
    match base with
    | None => ret None
    | Some (baseWidth, baseHeight) =>
        let* ow := randomOffset in
        let* oh := randomOffset in
        ret (Some (baseWidth + ow, baseHeight + oh))
    end
  else ret (Some (width s, height s)).

(** [inflateBlob]: pad with zero bytes up to [targetBytes]. *)
Definition inflateBlob (b : Blob) (targetBytes : Z) : Blob :=
  if (targetBytes =? 0) || (targetBytes <=? blob_size b) then b
  else
    let padSize := targetBytes - blob_size b in
    let pad := repeat x00 (Z.to_nat padSize) in
    mkBlob (blob_bytes b ++ pad) (blob_type b).

(** [deleteImage]: [images.value.splice(idx, 1)]. *)
Definition deleteImage (idx : nat) (s : State) : State :=
  set_images (delete idx (images s)) s.

(** *** One unit of the generation loop *)

Inductive Page := pages | forge.

Definition swatchTail (p : Page) : string :=
  match p with pages => ", 80%, 60%)" | forge => ", 40%, 85%)" end.

Definition inkStyle (p : Page) : string :=
  match p with pages => "#fff" | forge => "#000" end.

(** [bgColor.value || `hsl(${randInt(0, 359)}, ...)`]: the hue is drawn
    only when the colour is falsy. *)
Definition backgroundFill (p : Page) (s : State) : Rand string :=
  match bgColor s with
  | Some (String a c) => ret (String a c)
  | _ =>
      let* hue := randInt 0 359 in
      ret ("hsl(" +:+ pretty hue +:+ swatchTail p)
  end.

Definition paint (p : Page) (w h : Z) (fill uuid : string) : Canvas :=
  mkCanvas w h
    [ FillRect fill 0 0 w h;
      FillText (inkStyle p)
               (pretty (Math_round (inject_Z w / 20)) +:+ "px sans-serif")
               "center" "middle" 1
               (pretty w +:+ " × " +:+ pretty h)
               (inject_Z w / 2) (inject_Z h / 2);
      FillText (inkStyle p)
               (pretty (Math_round (inject_Z w / 45)) +:+ "px monospace")
               "left" "top" (9 # 10) uuid 12 8 ].

(** The argument of [degToDmsRational]: [randInt(0, top) + Math.random()]. *)
Definition randomDegrees (top : Z) : Rand Q :=
  let* d := randInt 0 top in
  let* f := draw Math_random in
  ret (inject_Z d + f)%Q.

Definition randomExif : Rand ExifObj :=
  let* make := draw faker_company_name in
  let* model := draw faker_commerce_productName in
  let* stamp := draw faker_date_recent in
  let* lat := randomDegrees 90 in
  let* lon := randomDegrees 180 in
  ret (mkExif make model "Placeholder Forge" stamp
              "N" (piexif_degToDmsRational lat)
              "E" (piexif_degToDmsRational lon)).

(** [await (await fetch(dataURL)).blob()] *)
Definition fetchBlob (d : DataURL) : Blob := mkBlob (url_bytes d) (url_type d).

(** [`image_${i + 1}_${uuid}_${w}x${h}.${format.value}`] *)
Definition imageName (index : Z) (uuid : string) (w h : Z) (f : Format) : string :=
  "image_" +:+ pretty index +:+ "_" +:+ uuid +:+ "_" +:+ pretty w +:+ "x"
           +:+ pretty h +:+ "." +:+ formatText f.

(** Only [forge] inflates. *)
Definition finishBlob (p : Page) (s : State) (b : Blob) : Blob :=
  match p with
  | pages => b
  | forge => inflateBlob b (targetSize s)
  end.

(** The loop body from [pickSize()] to the pushed record; [None] when
    [pickSize] throws. *)
Definition renderUnit (p : Page) (s : State) (i : nat) : Rand (option GenImg) :=
  let* size := pickSize s in
  match size with
  | None => ret None
  | Some (w, h) =>
      let* uuid := draw randomUUID_head in
      let* fill := backgroundFill p s in
      let canvas := paint p w h fill uuid in
      let dataURL := toDataURL canvas (mimeOf (format s)) in
      let* tagged :=
        (if withExif s && Format_eqb (format s) jpg
         then let* exifObj := randomExif in
              ret (Some exifObj, piexif_insert (piexif_dump exifObj) dataURL)
         else ret (None, dataURL)) in
      let blob := finishBlob p s (fetchBlob (snd tagged)) in
      let* handle := draw createObjectURL in
      ret (Some (mkGenImg (imageName (Z.of_nat i + 1) uuid w h (format s))
                          blob handle (fst tagged) uuid w h))
  end.

(** *** The run *)

Inductive Outcome :=
| Returned (s : State)      (* the promise resolved *)
| Threw (s : State).        (* the promise rejected, state as left behind *)

Definition final (o : Outcome) : State :=
  match o with Returned s | Threw s => s end.

(** [Math.min(Math.floor(((i + 1) / count.value) * 10), 9)] *)
Definition progressStep (i : nat) (s : State) : Z :=
  Z.min (Qfloor ((inject_Z (Z.of_nat i + 1) / inject_Z (count s)) * 10)) 9.

(** The [for] loop at index [i], with [remaining] indices below
    [count.value] still to visit.  The push is the last statement of the
    body; a Cancel click that arrives while the unit awaits sets the
    flag before the push. *)
Fixpoint generateLoop (p : Page) (clicks : nat -> bool) (remaining i : nat)
    (s : State) (t : nat) : Outcome :=
  match remaining with
  | O => Returned s
  | S remaining' =>
      if cancelRequested s then Returned s
      else
        let s1 := set_stepIdx (progressStep i s) s in
        match renderUnit p s1 i t with
        | (None, _) => Threw s1
        | (Some img, t') =>
            let s2 := if clicks i then set_cancelRequested true s1 else s1 in
            generateLoop p clicks remaining' (S i)
                         (set_images (images s2 ++ [img]) s2) t'
        end
  end.

(** The statements before the loop. *)
Definition startRun (s : State) : State :=
  set_images [] (set_cancelRequested false (set_isGenerating true (set_stepIdx 0 s))).

(** The statements after the loop. *)
Definition endRun (s : State) : State :=
  set_isGenerating false (if cancelRequested s then s else set_stepIdx 10 s).

(** [if (isOverRamLimit.value) return;], present in [forge] only. *)
Definition rejected (p : Page) (s : State) : bool :=
  match p with
  | pages => false
  | forge => isOverRamLimit s
  end.

Definition generateImages (p : Page) (clicks : nat -> bool) (s : State) (t : nat)
    : Outcome :=
  if rejected p s then Returned s
  else
    match generateLoop p clicks (Z.to_nat (count s)) 0 (startRun s) t with
    | Returned s' => Returned (endRun s')
    | Threw s' => Threw s'
    end.

(** [cancelGeneration] *)
Definition cancelGeneration (s : State) : State := set_cancelRequested true s.

(** *** The archive *)

(** [zip.file(i.name, i.blob)] for each image, into an empty archive;
    [zip.file] adds the entry or replaces the one of that name. *)
Definition downloadZip (s : State) : gmap string Blob :=
  foldl (fun zip i => <[name i := blob i]> zip) ∅ (images s).

End Generator.

(** ** A concrete platform for the examples

    Stand-ins for the browser and the libraries: a two-marker JPEG or PNG
    stub for the encoder, an APP1 marker for the serialized block spliced
    after the first marker, and the angle helper following piexifjs's
    [GPSHelper.degToDmsRational].  The draw at tick 4 is 255/256, every
    other draw is 1/2. *)

Definition sample_degToDmsRational (degFloat : Q) : Dms :=
  let degAbs := Qabs degFloat in
  let minFloat := ((degAbs - inject_Z (Qfloor degAbs)) * 60)%Q in
  let secFloat := ((minFloat - inject_Z (Qfloor minFloat)) * 60)%Q in
  [(Qfloor degAbs, 1); (Qfloor minFloat, 1); (Math_round (secFloat * 100), 100)].

Definition sample_random (k : nat) : Q :=
  if Nat.eqb k 4 then 255 # 256 else 1 # 2.

Definition samplePlatform : Platform := {|
  Math_random := sample_random;
  randomUUID_head := fun k => "1b9d6bcd";
  faker_company_name := fun k => "Acme";
  faker_commerce_productName := fun k => "Camera";
  faker_date_recent := fun k => "2025-01-01 12:00:00";
  createObjectURL := fun k => "blob:" +:+ pretty k;
  toDataURL := fun c mime =>
    mkDataURL mime (if String.eqb mime "image/jpeg"
                    then [xff; xd8; xff; xd9] else [x89; x50; x4e; x47]);
  piexif_degToDmsRational := sample_degToDmsRational;
  piexif_dump := fun e => [xff; xe1];
  piexif_insert := fun seg d =>
    mkDataURL (url_type d) (take 2 (url_bytes d) ++ seg ++ drop 2 (url_bytes d))
|}.

(** Three images, fixed 640 x 480, JPEG with EXIF, white background. *)
Definition sampleState : State :=
  mkState 3 jpg false 640 480 true (Some "#ffffff") 0 false false 0 [].

Definition noClicks : nat -> bool := fun _ => false.

(** ** Vocabulary of the statements *)

(** The settings a unit reads; a run does not write them. *)
Definition settings (s : State) :=
  (randomSize s, width s, height s, bgColor s, format s, withExif s,
   targetSize s, count s).

Section RunVocabulary.
Context `{Platform}.

(** The records of [n] consecutive units from index [i] and tick [t], in
    the order they are generated (up to the first unit that throws). *)
Fixpoint units (p : Page) (s : State) (n i t : nat) : list GenImg :=
  match n with
  | O => []
  | S n' =>
      match renderUnit p s i t with
      | (None, _) => []
      | (Some img, t') => img :: units p s n' (S i) t'
      end
  end.

End RunVocabulary.

(** How many units the loop completes from index [i] with [n] indices
    left, when the flag is clear on entry. *)
Fixpoint executed (clicks : nat -> bool) (n i : nat) : nat :=
  match n with
  | O => O
  | S n' => if clicks i then 1%nat else S (executed clicks n' (S i))
  end.

(** The cancellation flag as it stands once [k] units have completed:
    set as soon as a click arrived during one of them. *)
Definition flagAfter (clicks : nat -> bool) (k : nat) : bool :=
  existsb clicks (seq 0 k).

(** Cancellation is requested when exactly [k] units have completed: the
    first click arrives while the next unit, unit [k] counted from 0, is
    suspended. *)
Definition requestedAfter (clicks : nat -> bool) (k : nat) : bool :=
  clicks k && negb (flagAfter clicks k).

(** The character [c] does not occur in [s]. *)
Fixpoint free_of (c : ascii) (s : string) : Prop :=
  match s with
  | EmptyString => True
  | String a r => a <> c /\ free_of c r
  end.

(** The archive built from a list of records, as [downloadZip] builds it
    from [images.value]. *)
Definition zipOf (l : list GenImg) : gmap string Blob :=
  foldl (fun zip i => <[name i := blob i]> zip) ∅ l.

(** The state of a freshly mounted page. *)
Definition initialState : State :=
  mkState 1 jpg true 1920 1080 false (Some "") 0 false false 0 [].

Section Session.
Context `{Platform}.

(** What can happen to the session between two downloads: a generation
    request runs to its end, an image is deleted, or something other
    than the result list is edited (a form field, the Cancel flag, the
    count clamped by the watcher). *)
Inductive step : State -> State -> Prop :=
| step_generate (p : Page) (clicks : nat -> bool) (t : nat) (s : State) :
    step s (final (generateImages p clicks s t))
| step_delete (idx : nat) (s : State) :
    step s (deleteImage idx s)
| step_edit (s s' : State) :
    images s' = images s -> step s s'.

Definition reachable (s : State) : Prop := rtc step initialState s.

End Session.

(** ** The remaining handlers and tables of the pages *)

Definition statusSteps : list string :=
  [ "Initializing canvas…";
    "Generating dimensions…";
    "Applying background color…";
    "Drawing placeholder text…";
    "Injecting EXIF metadata…";
    "Generating GeoLocation data…";
    "Rendering image textures…";
    "Finalizing image details…";
    "Compressing image data…";
    "Preparing ZIP archive…";
    "Export ready! Download your images 💾" ].

(** [setSize]: the size badges write both fields. *)
Definition setSize (size : Z * Z) (s : State) : State :=
  mkState (count s) (format s) (randomSize s) size.1 size.2 (withExif s)
          (bgColor s) (targetSize s) (isGenerating s) (cancelRequested s)
          (stepIdx s) (images s).

(** [resetColor]: [bgColor.value = null]. *)
Definition resetColor (s : State) : State :=
  mkState (count s) (format s) (randomSize s) (width s) (height s) (withExif s)
          None (targetSize s) (isGenerating s) (cancelRequested s)
          (stepIdx s) (images s).

(** The quick presets offered for the count. *)
Definition countPresets : list Z := [5; 25; 50; 100].

(** A click on a count preset: [count = preset] in [pages],
    [count = Math.min(preset, maxCountAllowed)] in [forge]. *)
Definition clickPreset (p : Page) (preset : Z) (s : State) : State :=
  match p with
  | pages => set_count preset s
  | forge => set_count (Z.min preset (maxCountAllowed s)) s
  end.

(** * Properties *)

(** ** Arithmetic of the draws *)

Lemma floor_scaled_draw (r : Q) (n : Z) :
  (0 <= r)%Q -> (r < 1)%Q -> 0 < n ->
  0 <= Qfloor (r * inject_Z n) < n.
Proof.
  intros Hlo Hhi Hn.
  assert (Hn' : (0 < inject_Z n)%Q) by (change (inject_Z 0 < inject_Z n)%Q; rewrite <- Zlt_Qlt; exact Hn).
  split.
  - change 0 with (Qfloor 0). apply Qfloor_resp_le.
    apply Qmult_le_0_compat; [exact Hlo | apply Qlt_le_weak, Hn'].
  - rewrite Zlt_Qlt.
    apply Qle_lt_trans with (r * inject_Z n)%Q; [apply Qfloor_le |].
    apply Qlt_le_trans with (1 * inject_Z n)%Q;
      [apply Qmult_lt_compat_r; assumption |].
    rewrite Qmult_1_l. apply Qle_refl.
Qed.

Lemma sample_unit_draws : @unit_draws samplePlatform.
Proof.
  intros k. cbn. unfold sample_random.
  destruct (Nat.eqb k 4); split; vm_compute; congruence.
Qed.

Section Helpers.
Context `{Platform}.
Hypothesis draws : unit_draws.

Lemma randInt_spec (lo hi : Z) (t : nat) :
  lo <= hi ->
  exists d, randInt lo hi t = (d, S t) /\ lo <= d <= hi.
Proof.
  intros Hle. unfold randInt, bind, draw, ret.
  destruct (draws t) as [H0 H1].
  pose proof (floor_scaled_draw (Math_random t) (hi - lo + 1) H0 H1 ltac:(lia)).
  eexists; split; [reflexivity | lia].
Qed.

Lemma randomOffset_spec (t : nat) :
  exists o, randomOffset t = (o, S t) /\ -50 <= o <= 50.
Proof.
  unfold randomOffset, bind, draw, ret.
  destruct (draws t) as [H0 H1].
  pose proof (floor_scaled_draw (Math_random t) 101 H0 H1 ltac:(lia)) as Hr.
  change (inject_Z 101) with (101 : Q) in Hr.
  eexists; split; [reflexivity | lia].
Qed.

Lemma pickEntry_spec (arr : list (Z * Z)) (t : nat) :
  arr <> [] ->
  exists e, e ∈ arr /\ pickEntry arr t = (Some e, S t).
Proof.
  intros Hne. unfold pickEntry, bind, draw, ret.
  destruct (draws t) as [H0 H1].
  assert (Hlen : 0 < Z.of_nat (length arr)) by (destruct arr; [done | simpl; lia]).
  pose proof (floor_scaled_draw _ _ H0 H1 Hlen) as [Hk0 Hk1].
  set (k := Qfloor _) in *.
  destruct (Z.ltb_spec k 0) as [|_]; [lia |].
  destruct (lookup_lt_is_Some_2 arr (Z.to_nat k) ltac:(lia)) as [e He].
  exists e. rewrite He. split; [by eapply list_elem_of_lookup_2 | done].
Qed.

(** Random mode: two draws choose the preset, two more the offsets. *)
Lemma pickSize_random (s : State) (t : nat) :
  randomSize s = true ->
  exists (base : Z * Z) (ow oh : Z),
    base ∈ (if Qgtb (Math_random t) (1 # 2)
            then landscapeSizes else portraitSizes)
    /\ randomOffset (2 + t)%nat = (ow, (3 + t)%nat)
    /\ randomOffset (3 + t)%nat = (oh, (4 + t)%nat)
    /\ -50 <= ow <= 50 /\ -50 <= oh <= 50
    /\ pickSize s t = (Some (base.1 + ow, base.2 + oh), (4 + t)%nat).
Proof.
  intros Hrand. unfold pickSize. rewrite Hrand.
  unfold bind at 1. unfold draw at 1.
  destruct (randomOffset_spec (2 + t)) as (ow & Eow & Row).
  destruct (randomOffset_spec (3 + t)) as (oh & Eoh & Roh).
  assert (Hpick : exists base,
             base ∈ (if Qgtb (Math_random t) (1 # 2)
                     then landscapeSizes else portraitSizes)
             /\ (if Qgtb (Math_random t) (1 # 2)
                 then pickEntry landscapeSizes
                 else pickEntry portraitSizes) (S t) = (Some base, S (S t))).
  { destruct (Qgtb (Math_random t) (1 # 2)); by apply pickEntry_spec. }
  destruct Hpick as ([bw bh] & Hin & Hpick).
  exists (bw, bh), ow, oh. unfold bind. rewrite Hpick.
  cbn [fst snd plus] in *. rewrite Eow, Eoh. done.
Qed.

(** With draws in the unit interval [pickSize] does not throw. *)
Lemma pickSize_total (s : State) (t : nat) :
  exists w h t1, pickSize s t = (Some (w, h), t1).
Proof.
  destruct (randomSize s) eqn:Er.
  - destruct (pickSize_random s t Er) as ([bw bh] & ow & oh & _ & _ & _ & _ & _ & E).
    eauto.
  - unfold pickSize. rewrite Er. unfold ret. eauto.
Qed.

End Helpers.

(** ** Size inflator *)

(** C2. For every byte sequence of length L and every target T,
    [inflateBlob] returns max(L, T) bytes; for T = 0 it returns its
    input; the output starts with the L input bytes, and whatever
    follows them is zero bytes (the media type is kept). *)
Theorem inflateBlob_spec (b : Blob) (targetBytes : Z) :
  blob_size (inflateBlob b targetBytes) = Z.max (blob_size b) targetBytes
  /\ (targetBytes = 0 -> inflateBlob b targetBytes = b)
  /\ take (length (blob_bytes b)) (blob_bytes (inflateBlob b targetBytes))
     = blob_bytes b
  /\ (exists pad : list byte,
        blob_bytes (inflateBlob b targetBytes) = blob_bytes b ++ pad
        /\ Forall (fun c => c = x00) pad)
  /\ blob_type (inflateBlob b targetBytes) = blob_type b.
Proof.
  unfold inflateBlob, blob_size.
  destruct (Z.eqb_spec targetBytes 0) as [-> | Hnz]; cbn [orb].
  - repeat split; [lia | by rewrite firstn_all | ].
    exists []. by rewrite app_nil_r.
  - destruct (Z.leb_spec targetBytes (Z.of_nat (length (blob_bytes b)))) as [Hle | Hgt].
    + repeat split; [lia | by rewrite firstn_all | ].
      exists []. by rewrite app_nil_r.
    + cbn [blob_bytes blob_type]. repeat split.
      * rewrite length_app, repeat_length. lia.
      * congruence.
      * by rewrite take_app_length.
      * eexists; split; [reflexivity |]. apply Forall_forall.
        intros c Hc%list_elem_of_In. by apply repeat_spec in Hc.
Qed.

(** ** Size picker *)

Section SizePicker.
Context `{Platform}.

(** C6. In fixed mode with width 800 and height 600 [pickSize] returns
    (800, 600) and draws nothing.  In random mode, whatever the draws,
    it returns a preset (landscape when the first draw exceeds 1/2,
    portrait otherwise) with one offset added to each dimension; the two
    offsets come from two separate draws and each lies in -50..50, so
    each dimension is within 50 of its base. *)
Theorem pickSize_spec (s : State) (t : nat) :
  (randomSize s = false -> width s = 800 -> height s = 600 ->
   pickSize s t = (Some (800, 600), t))
  /\ (unit_draws -> randomSize s = true ->
      exists (base : Z * Z) (ow oh : Z),
        base ∈ (if Qgtb (Math_random t) (1 # 2)
                then landscapeSizes else portraitSizes)
        /\ randomOffset (2 + t)%nat = (ow, (3 + t)%nat)
        /\ randomOffset (3 + t)%nat = (oh, (4 + t)%nat)
        /\ -50 <= ow <= 50 /\ -50 <= oh <= 50
        /\ pickSize s t = (Some (base.1 + ow, base.2 + oh), (4 + t)%nat)
        /\ base.1 - 50 <= base.1 + ow <= base.1 + 50
        /\ base.2 - 50 <= base.2 + oh <= base.2 + 50).
Proof.
  split.
  - intros Hfix Hw Hh. unfold pickSize. rewrite Hfix, Hw, Hh. reflexivity.
  - intros Hd Hrand.
    destruct (pickSize_random Hd s t Hrand)
      as (base & ow & oh & Hin & Eow & Eoh & Row & Roh & E).
    exists base, ow, oh. repeat split; try done; lia.
Qed.

End SizePicker.

(** The fixed-mode and random-mode parts at two concrete states. *)
Lemma pickSize_spec_witness :
  @pickSize samplePlatform
     (mkState 1 jpg false 800 600 false None 0 false false 0 []) 0%nat
  = (Some (800, 600), 0%nat)
  /\ exists (base : Z * Z) (ow oh : Z),
       base ∈ portraitSizes
       /\ -50 <= ow <= 50 /\ -50 <= oh <= 50
       /\ @pickSize samplePlatform
            (mkState 1 jpg true 1920 1080 false None 0 false false 0 []) 0%nat
          = (Some (base.1 + ow, base.2 + oh), 4%nat).
Proof.
  split.
  - apply (@pickSize_spec samplePlatform); reflexivity.
  - destruct (proj2 (@pickSize_spec samplePlatform
                       (mkState 1 jpg true 1920 1080 false None 0 false false 0 [])
                       0%nat) sample_unit_draws eq_refl)
      as (base & ow & oh & Hin & _ & _ & Hw & Hh & Hp & _).
    exists base, ow, oh. repeat split; try apply Hw; try apply Hh; assumption.
Defined.

(** ** RAM safeguard *)

Section Safeguard.
Context `{Platform}.

(** C7. In the page with the RAM safeguard, a generation request whose
    estimated footprint (count times estimated image size) exceeds
    500 MB returns at once and leaves the whole state as it was: result
    list, generating flag, progress index and everything else. *)
Theorem generateImages_over_limit (clicks : nat -> bool) (s : State) (t : nat) :
  MAX_RAM_BYTES < totalEstimatedBytes s ->
  generateImages forge clicks s t = Returned s
  /\ images (final (generateImages forge clicks s t)) = images s
  /\ isGenerating (final (generateImages forge clicks s t)) = isGenerating s
  /\ stepIdx (final (generateImages forge clicks s t)) = stepIdx s.
Proof.
  intros Hover.
  assert (E : generateImages forge clicks s t = Returned s).
  { unfold generateImages, rejected, isOverRamLimit.
    by destruct (Z.ltb_spec MAX_RAM_BYTES (totalEstimatedBytes s)); [| lia]. }
  rewrite E. done.
Qed.

End Safeguard.

(** 2000 images at the automatic size: 600,000 KB estimated. *)
Lemma generateImages_over_limit_witness :
  let s := mkState 2000 jpg true 1920 1080 false None 0 false false 7 [] in
  MAX_RAM_BYTES < totalEstimatedBytes s
  /\ @generateImages samplePlatform forge noClicks s 0 = Returned s.
Proof.
  intros s. split; [reflexivity |].
  apply (@generateImages_over_limit samplePlatform noClicks s 0%nat). reflexivity.
Defined.

Lemma maxCountAllowed_fits (s : State) :
  targetSize s ∈ targetSizeItems ->
  0 < estimatedImageSize s
  /\ maxCountAllowed s * estimatedImageSize s <= MAX_RAM_BYTES.
Proof.
  unfold targetSizeItems. intros Hin.
  unfold maxCountAllowed, estimatedImageSize, MAX_RAM_BYTES.
  repeat (apply elem_of_cons in Hin as [-> | Hin]); [| | | |by apply elem_of_nil in Hin];
    vm_compute; split; congruence.
Qed.

(** C10. In the page with the RAM safeguard: once the watcher has
    clamped the count, for every target size of the menu (auto, 1 MB,
    5 MB, 10 MB) the estimated footprint is at most 500 MB, so
    [isOverRamLimit] is false and a generation request is not rejected. *)
Theorem enforceMaxCount_under_limit (s : State) :
  targetSize s ∈ targetSizeItems ->
  count (enforceMaxCount s) <= maxCountAllowed (enforceMaxCount s)
  /\ totalEstimatedBytes (enforceMaxCount s) <= MAX_RAM_BYTES
  /\ isOverRamLimit (enforceMaxCount s) = false
  /\ rejected forge (enforceMaxCount s) = false.
Proof.
  intros Hin. destruct (maxCountAllowed_fits s Hin) as [Hpos Hfit].
  assert (Hc : count (enforceMaxCount s) <= maxCountAllowed s
               /\ estimatedImageSize (enforceMaxCount s) = estimatedImageSize s
               /\ maxCountAllowed (enforceMaxCount s) = maxCountAllowed s).
  { unfold enforceMaxCount.
    destruct (Z.ltb_spec (maxCountAllowed s) (count s)) as [Hgt | Hle].
    - split; [cbn [count set_count]; lia | split; reflexivity].
    - split; [exact Hle | split; reflexivity]. }
  destruct Hc as (Hc & He & Hm).
  assert (Htot : totalEstimatedBytes (enforceMaxCount s) <= MAX_RAM_BYTES).
  { unfold totalEstimatedBytes. rewrite He. nia. }
  assert (Hok : isOverRamLimit (enforceMaxCount s) = false).
  { unfold isOverRamLimit. apply Z.ltb_ge, Htot. }
  rewrite Hm. repeat split; [exact Hc | exact Htot | exact Hok | exact Hok].
Qed.

(** 2000 images requested at 5 MB each: the watcher brings the count to 100. *)
Lemma enforceMaxCount_under_limit_witness :
  let s := mkState 2000 jpg true 1920 1080 false None (5 * 1024 * 1024)
                   false false 0 [] in
  targetSize s ∈ targetSizeItems
  /\ count (enforceMaxCount s) = 100
  /\ isOverRamLimit (enforceMaxCount s) = false.
Proof.
  intros s.
  assert (Hin : targetSize s ∈ targetSizeItems).
  { unfold targetSizeItems. cbn. do 2 apply list_elem_of_further. apply list_elem_of_here. }
  split; [exact Hin |]. split; [reflexivity |].
  apply (enforceMaxCount_under_limit s Hin).
Defined.

(** ** The generation run *)

Section Run.
Context `{Platform}.

Lemma renderUnit_settings (p : Page) (s s' : State) (i t : nat) :
  settings s = settings s' -> renderUnit p s i t = renderUnit p s' i t.
Proof.
  destruct s, s'. unfold settings. cbn. intros [= -> -> -> -> -> -> -> ->].
  reflexivity.
Qed.

Lemma units_settings (p : Page) (s s' : State) (n i t : nat) :
  settings s = settings s' -> units p s n i t = units p s' n i t.
Proof.
  intros E. revert i t. induction n as [| n IH]; intros i t; cbn; [done |].
  rewrite (renderUnit_settings p s s' i t E).
  destruct (renderUnit p s' i t) as [[img |] t']; [by rewrite IH | done].
Qed.

Lemma units_length_le (p : Page) (s : State) (n i t : nat) :
  (length (units p s n i t) <= n)%nat.
Proof.
  revert i t. induction n as [| n IH]; intros i t; cbn; [lia |].
  destruct (renderUnit p s i t) as [[img |] t']; cbn; [| lia].
  specialize (IH (S i) t'). lia.
Qed.

(** What one unit produces, whenever it produces something. *)
Lemma renderUnit_record (p : Page) (s : State) (i t t' : nat) (img : GenImg) :
  renderUnit p s i t = (Some img, t') ->
  name img = imageName (Z.of_nat i + 1) (uuid img) (img_width img)
                       (img_height img) (format s)
  /\ (is_Some (exif img) <-> format s = jpg /\ withExif s = true).
Proof.
  unfold renderUnit, bind.
  destruct (pickSize s t) as [[[w h] |] t1]; [| by unfold ret].
  destruct (draw randomUUID_head t1) as [u t2].
  destruct (backgroundFill p s t2) as [fill t3].
  destruct (withExif s) eqn:Ex, (format s) eqn:Ef; cbn [andb Format_eqb];
    try (destruct (randomExif t3) as [e t4]);
    unfold ret; cbn [fst snd];
    match goal with |- context [draw createObjectURL ?k] =>
      destruct (draw createObjectURL k) as [hd t5] end;
    intros [= <- <-]; cbn [name uuid img_width img_height exif];
    (split; [reflexivity |]);
    (split; [intros [x Hx]; (discriminate Hx || done)
            | intros [Hf Hw]; (discriminate Hf || discriminate Hw || eauto)]).
Qed.

(** With draws in the unit interval a unit never throws. *)
Lemma renderUnit_total (p : Page) (s : State) (i t : nat) :
  unit_draws -> exists img t', renderUnit p s i t = (Some img, t').
Proof.
  intros Hd. unfold renderUnit, bind.
  destruct (pickSize_total Hd s t) as (w & h & t1 & ->).
  destruct (draw randomUUID_head t1) as [u t2].
  destruct (backgroundFill p s t2) as [fill t3].
  destruct (withExif s && Format_eqb (format s) jpg);
    try (destruct (randomExif t3) as [e t4]);
    unfold ret; cbn [fst snd];
    match goal with |- context [draw createObjectURL ?k] =>
      destruct (draw createObjectURL k) as [hd t5] end; eauto.
Qed.

Lemma units_length (p : Page) (s : State) (n i t : nat) :
  unit_draws -> length (units p s n i t) = n.
Proof.
  intros Hd. revert i t. induction n as [| n IH]; intros i t; cbn; [done |].
  destruct (renderUnit_total p s i t Hd) as (img & t' & ->). cbn. by rewrite IH.
Qed.

Lemma units_lookup (p : Page) (s : State) (n i t j : nat) (img : GenImg) :
  units p s n i t !! j = Some img ->
  name img = imageName (Z.of_nat (i + j) + 1) (uuid img) (img_width img)
                       (img_height img) (format s)
  /\ (is_Some (exif img) <-> format s = jpg /\ withExif s = true).
Proof.
  revert i t j. induction n as [| n IH]; intros i t j; cbn; [done |].
  destruct (renderUnit p s i t) as [[first |] t'] eqn:E; [| done].
  destruct j as [| j]; cbn.
  - intros [= <-]. rewrite Nat.add_0_r. by eapply renderUnit_record.
  - intros Hj. apply IH in Hj. by rewrite Nat.add_succ_r.
Qed.

Lemma units_take (p : Page) (s : State) (n k i t : nat) :
  (k <= n)%nat -> take k (units p s n i t) = units p s k i t.
Proof.
  revert n i t. induction k as [| k IH]; intros n i t Hle; [by rewrite take_0 |].
  destruct n as [| n]; [lia |]. cbn.
  destruct (renderUnit p s i t) as [[img |] t']; [| done].
  cbn. f_equal. apply IH. lia.
Qed.

Lemma generateLoop_cancelled (p : Page) (clicks : nat -> bool) (n i : nat)
    (s : State) (t : nat) :
  cancelRequested s = true -> generateLoop p clicks n i s t = Returned s.
Proof. intros Hc. destruct n; cbn; [done | by rewrite Hc]. Qed.

(** The loop appends, in order, the records of the units it completes,
    and writes nothing but the progress index, the flag (on a click) and
    the list. *)
Lemma generateLoop_images (p : Page) (clicks : nat -> bool) (n i : nat)
    (s : State) (t : nat) :
  cancelRequested s = false ->
  images (final (generateLoop p clicks n i s t))
  = images s ++ take (executed clicks n i) (units p s n i t)
  /\ settings (final (generateLoop p clicks n i s t)) = settings s
  /\ isGenerating (final (generateLoop p clicks n i s t)) = isGenerating s.
Proof.
  revert i s t. induction n as [| n IH]; intros i s t Hc.
  - cbn. by rewrite app_nil_r.
  - cbn [generateLoop units executed]. rewrite Hc.
    set (s1 := set_stepIdx (progressStep i s) s).
    rewrite (renderUnit_settings p s1 s i t eq_refl).
    destruct (renderUnit p s i t) as [[img |] t'].
    + destruct (clicks i).
      * rewrite generateLoop_cancelled by done. cbn. by rewrite take_0.
      * set (s' := set_images (images s1 ++ [img]) s1).
        destruct (IH (S i) s' t' Hc) as (Him & Hset & Hgen).
        rewrite Him, Hset, Hgen, (units_settings p s' s n (S i) t' eq_refl).
        cbn. by rewrite <- app_assoc.
    + cbn. by rewrite take_nil, app_nil_r.
Qed.

(** With draws in the unit interval the loop returns; the flag is then
    set exactly when it was set before or a click arrived during one of
    the units. *)
Lemma generateLoop_returns (p : Page) (clicks : nat -> bool) (n i : nat)
    (s : State) (t : nat) :
  unit_draws ->
  exists s', generateLoop p clicks n i s t = Returned s'
    /\ cancelRequested s' = cancelRequested s || existsb clicks (seq i n).
Proof.
  intros Hd. revert i s t. induction n as [| n IH]; intros i s t.
  - exists s. cbn. by rewrite orb_false_r.
  - destruct (cancelRequested s) eqn:Hc.
    { exists s. by rewrite generateLoop_cancelled. }
    cbn [generateLoop existsb seq]. rewrite Hc.
    set (s1 := set_stepIdx (progressStep i s) s).
    destruct (renderUnit_total p s1 i t Hd) as (img & t' & ->).
    destruct (clicks i).
    + eexists. by rewrite generateLoop_cancelled.
    + destruct (IH (S i) (set_images (images s1 ++ [img]) s1) t') as (s' & -> & E).
      exists s'. split; [done |]. rewrite E. cbn. by rewrite Hc.
Qed.

Lemma executed_noClicks (n i : nat) : executed (fun _ => false) n i = n.
Proof. revert i. induction n as [| n IH]; intros i; cbn; [done | by rewrite IH]. Qed.


(** The result list of a run that was not rejected. *)
Lemma generateImages_images (p : Page) (clicks : nat -> bool) (s : State) (t : nat) :
  rejected p s = false ->
  images (final (generateImages p clicks s t))
  = take (executed clicks (Z.to_nat (count s)) 0)
         (units p s (Z.to_nat (count s)) 0 t).
Proof.
  intros Hrej. unfold generateImages. rewrite Hrej.
  destruct (generateLoop_images p clicks (Z.to_nat (count s)) 0 (startRun s) t eq_refl)
    as (Him & _ & _).
  rewrite (units_settings p (startRun s) s _ _ _ eq_refl) in Him.
  destruct (generateLoop _ _ _ _ _ _) as [s' | s']; cbn in Him |- *.
  - rewrite <- Him. unfold endRun. by destruct (cancelRequested s').
  - exact Him.
Qed.

End Run.

Lemma flagAfter_S (clicks : nat -> bool) (k : nat) :
  flagAfter clicks (S k) = flagAfter clicks k || clicks k.
Proof.
  unfold flagAfter. rewrite seq_S, existsb_app. cbn. by rewrite orb_false_r.
Qed.

Lemma flagAfter_clear (clicks : nat -> bool) (k j : nat) :
  flagAfter clicks k = false -> (j < k)%nat -> clicks j = false.
Proof.
  unfold flagAfter. intros Hk Hj.
  destruct (clicks j) eqn:E; [| done].
  rewrite <- Hk. symmetry. apply existsb_exists. exists j.
  split; [apply in_seq; lia | done].
Qed.

Lemma executed_until (clicks : nat -> bool) (n i m : nat) :
  (forall j, (i <= j < i + m)%nat -> clicks j = false) ->
  clicks (i + m)%nat = true -> (m < n)%nat ->
  executed clicks n i = S m.
Proof.
  revert n i. induction m as [| m IH]; intros n i Hclear Hclick Hlt.
  - destruct n; [lia |]. cbn. rewrite Nat.add_0_r in Hclick. by rewrite Hclick.
  - destruct n; [lia |]. cbn. rewrite (Hclear i) by lia.
    f_equal. apply IH; [| | lia].
    + intros j Hj. apply Hclear. lia.
    + by rewrite Nat.add_succ_comm.
Qed.

(** The first boundary at which the flag is up is where the loop stops. *)
Lemma executed_first_flag (clicks : nat -> bool) (n k : nat) :
  flagAfter clicks k = true ->
  (forall j, (j < k)%nat -> flagAfter clicks j = false) ->
  (k <= n)%nat ->
  executed clicks n 0 = k /\ (exists m, k = S m /\ clicks m = true).
Proof.
  intros Hup Hclear Hle.
  destruct k as [| m]; [done |].
  pose proof (Hclear m ltac:(lia)) as Hm.
  rewrite flagAfter_S, Hm in Hup. cbn in Hup.
  split; [| eauto].
  apply executed_until; [| done | lia].
  intros j Hj. apply (flagAfter_clear clicks m); [done | lia].
Qed.

Section RunTheorems.
Context `{Platform}.

(** C1. In a run that starts, every item of the result list has a
    metadata block exactly when the format is jpg and the EXIF toggle is
    on; with png the block is null whatever the toggle. *)
Theorem exif_only_for_jpg (p : Page) (clicks : nat -> bool) (s : State)
    (t : nat) (img : GenImg) :
  rejected p s = false ->
  img ∈ images (final (generateImages p clicks s t)) ->
  (is_Some (exif img) <-> format s = jpg /\ withExif s = true)
  /\ (format s = png -> exif img = None).
Proof.
  intros Hrej Hin. rewrite generateImages_images in Hin by done.
  apply elem_of_take in Hin as (j & Hj & _).
  apply units_lookup in Hj as [_ Hex].
  split; [exact Hex |].
  intros Hpng. destruct (exif img) eqn:E; [| done].
  destruct (proj1 Hex ltac:(eauto)) as [Hjpg _]. congruence.
Qed.


(** Boundary form of a cancelled run.  The flag is looked at once per
    unit, at the boundary that follows it.  If the boundary after unit k
    (k < N) is the first at which the flag is up, the loop stops there
    with exactly the first k entries of the run without a click. *)
Lemma generateImages_cancelled (p : Page) (clicks : nat -> bool) (s : State)
    (t N k : nat) :
  unit_draws ->
  count s = Z.of_nat N -> rejected p s = false ->
  (k < N)%nat ->
  flagAfter clicks k = true ->
  (forall j, (j < k)%nat -> flagAfter clicks j = false) ->
  exists s', generateImages p clicks s t = Returned s'
    /\ length (images s') = k
    /\ images s' = take k (images (final (generateImages p (fun _ => false) s t)))
    /\ images s' = units p s k 0 t
    /\ cancelRequested s' = true
    /\ isGenerating s' = false.
Proof.
  intros Hd Hcount Hrej Hk Hup Hclear.
  destruct (executed_first_flag clicks N k Hup Hclear ltac:(lia))
    as (Hex & m & -> & Hclick).
  pose proof (generateImages_images p clicks s t Hrej) as Him.
  pose proof (generateImages_images p (fun _ => false) s t Hrej) as Hfull.
  rewrite Hcount, Nat2Z.id in Him, Hfull. rewrite Hex in Him.
  rewrite executed_noClicks, firstn_all2 in Hfull by apply units_length_le.
  assert (Hret : exists s1, generateImages p clicks s t = Returned (endRun s1)
                   /\ cancelRequested s1 = true).
  { unfold generateImages. rewrite Hrej, Hcount, Nat2Z.id.
    destruct (generateLoop_returns p clicks N 0 (startRun s) t Hd)
      as (s1 & -> & Hflag).
    exists s1. split; [done |]. rewrite Hflag. cbn.
    apply existsb_exists. exists m. split; [apply in_seq; lia | done]. }
  destruct Hret as (s1 & Hret & Hset).
  rewrite Hret in Him. cbn [final] in Him.
  exists (endRun s1). split; [exact Hret |].
  rewrite Hfull, Him. repeat split.
  - rewrite length_take, units_length by done. lia.
  - apply units_take. lia.
  - unfold endRun. by rewrite Hset.
Qed.

End RunTheorems.

(** The sample run: three JPEGs with EXIF; each has its block. *)
Lemma exif_only_for_jpg_witness :
  exists img : GenImg,
    img ∈ images (final (@generateImages samplePlatform forge noClicks sampleState 0))
    /\ is_Some (exif img).
Proof.
  assert (Hin : exists img : GenImg,
             img ∈ images (final (@generateImages samplePlatform forge noClicks
                                     sampleState 0))).
  { vm_compute. eexists. apply list_elem_of_here. }
  destruct Hin as [img Hin]. exists img. split; [exact Hin |].
  apply (@exif_only_for_jpg samplePlatform forge noClicks sampleState 0%nat img
           eq_refl Hin).
  split; reflexivity.
Defined.


Section CancelRequest.
Context `{Platform}.

(** C4, as the code has it.  The flag is read once per unit, at the
    boundary before the next unit starts.  If Cancel is requested when
    exactly k units have completed (k < N), the unit in flight still
    completes and pushes its record; the loop stops at the next unit
    boundary and [generateImages] returns with exactly k + 1 entries,
    the first k + 1 of the run without a click; they stay in the list
    and the flag stays set. *)
Theorem generateImages_cancel_request (p : Page) (clicks : nat -> bool)
    (s : State) (t N k : nat) :
  unit_draws ->
  count s = Z.of_nat N -> rejected p s = false ->
  (k < N)%nat ->
  requestedAfter clicks k = true ->
  exists s', generateImages p clicks s t = Returned s'
    /\ length (images s') = S k
    /\ images s' = take (S k) (images (final (generateImages p (fun _ => false) s t)))
    /\ images s' = units p s (S k) 0 t
    /\ cancelRequested s' = true
    /\ isGenerating s' = false.
Proof.
  intros Hd Hcount Hrej Hk Hreq.
  unfold requestedAfter in Hreq.
  apply andb_true_iff in Hreq as [Hclick Hclear%negb_true_iff].
  assert (Hex : executed clicks N 0 = S k).
  { apply executed_until; [| done | done].
    intros j Hj. apply (flagAfter_clear clicks k); [done | lia]. }
  pose proof (generateImages_images p clicks s t Hrej) as Him.
  pose proof (generateImages_images p (fun _ => false) s t Hrej) as Hfull.
  rewrite Hcount, Nat2Z.id in Him, Hfull. rewrite Hex in Him.
  rewrite executed_noClicks, firstn_all2 in Hfull by apply units_length_le.
  assert (Hret : exists s1, generateImages p clicks s t = Returned (endRun s1)
                   /\ cancelRequested s1 = true).
  { unfold generateImages. rewrite Hrej, Hcount, Nat2Z.id.
    destruct (generateLoop_returns p clicks N 0 (startRun s) t Hd)
      as (s1 & -> & Hflag).
    exists s1. split; [done |]. rewrite Hflag. cbn.
    apply existsb_exists. exists k. split; [apply in_seq; lia | done]. }
  destruct Hret as (s1 & Hret & Hset).
  rewrite Hret in Him. cbn [final] in Him.
  exists (endRun s1). split; [exact Hret |].
  rewrite Hfull, Him. repeat split.
  - rewrite length_take, units_length by done. lia.
  - apply units_take. lia.
  - unfold endRun. by rewrite Hset.
Qed.

End CancelRequest.

(** Cancel clicked when one of three units has completed, that is while
    the second is suspended: two entries are kept. *)
Lemma generateImages_cancel_request_witness :
  exists s' : State,
    @generateImages samplePlatform pages (fun i => Nat.eqb i 1) sampleState 0
    = Returned s'
    /\ length (images s') = 2%nat
    /\ cancelRequested s' = true.
Proof.
  destruct (@generateImages_cancel_request samplePlatform pages
              (fun i => Nat.eqb i 1) sampleState 0 3 1 sample_unit_draws
              eq_refl eq_refl ltac:(lia) eq_refl)
    as (s' & E & L & _ & _ & Hc & _).
  exists s'. repeat split; assumption.
Defined.

(** The same run against the count of units completed at the request:
    one unit was complete, yet the list does not hold exactly one entry. *)
Lemma cancel_request_counterexample :
  requestedAfter (fun i => Nat.eqb i 1) 1 = true
  /\ count sampleState = 3
  /\ length (images (final (@generateImages samplePlatform pages
                              (fun i => Nat.eqb i 1) sampleState 0))) = 2%nat
  /\ length (images (final (@generateImages samplePlatform pages
                              (fun i => Nat.eqb i 1) sampleState 0))) <> 1%nat.
Proof.
  split; [reflexivity |]. split; [reflexivity |].
  assert (E : length (images (final (@generateImages samplePlatform pages
                                       (fun i => Nat.eqb i 1) sampleState 0)))
              = 2%nat) by (vm_compute; reflexivity).
  split; [exact E |]. rewrite E. discriminate.
Qed.

(** ** File names *)

Lemma pretty_N_char_not_sep (x : N) : pretty_N_char x <> "_"%char.
Proof. unfold pretty_N_char. by repeat case_match. Qed.

Lemma pretty_N_go_free (x : N) (s : string) :
  free_of "_" s -> free_of "_" (pretty_N_go x s).
Proof.
  revert s. induction (N.lt_wf_0 x) as [x _ IH]; intros s Hs.
  destruct (decide (x = 0)%N) as [-> | Hx]; [by rewrite pretty_N_go_0 |].
  rewrite pretty_N_go_step by lia.
  apply IH; [apply N.div_lt; lia |].
  split; [apply pretty_N_char_not_sep | exact Hs].
Qed.

Lemma pretty_N_free (x : N) : free_of "_" (pretty x).
Proof.
  unfold pretty, pretty_N. case_decide; [by cbn |].
  by apply pretty_N_go_free.
Qed.

Lemma pretty_Z_free (z : Z) : free_of "_" (pretty z).
Proof.
  destruct z as [| x | x]; unfold pretty, pretty_Z.
  - by cbn.
  - apply pretty_N_free.
  - split; [done | apply pretty_N_free].
Qed.

(** Two texts that agree up to and including the first separator. *)
Lemma append_sep_inj (c : ascii) (s1 s2 r1 r2 : string) :
  free_of c s1 -> free_of c s2 ->
  s1 +:+ String c r1 = s2 +:+ String c r2 -> s1 = s2.
Proof.
  revert s2. induction s1 as [| a s1 IH]; intros [| b s2]; cbn.
  - done.
  - intros _ [Hb _] [= -> _]. done.
  - intros [Ha _] _ [= -> _]. done.
  - intros [_ H1] [_ H2] [= -> E]. f_equal. by apply IH.
Qed.

(** The index can be read back from a generated name. *)
Lemma imageName_index_inj (a b : Z) (u u' : string) (w w' h h' : Z) (f f' : Format) :
  imageName a u w h f = imageName b u' w' h' f' -> a = b.
Proof.
  unfold imageName. cbn -[pretty]. intros [= E].
  apply append_sep_inj in E; [| apply pretty_Z_free ..].
  by apply (inj pretty).
Qed.

(** ** The archive *)

Lemma zipOf_exact (l : list GenImg) :
  NoDup (name <$> l) ->
  size (zipOf l) = length l
  /\ (forall (n : string) (b : Blob),
        zipOf l !! n = Some b <-> exists i, i ∈ l /\ name i = n /\ blob i = b).
Proof.
  induction l as [| x l IH] using rev_ind; intros Hnd.
  - split; [done |]. intros n b. cbn. rewrite lookup_empty. split; [done |].
    intros (i & Hi & _). by apply elem_of_nil in Hi.
  - rewrite fmap_app in Hnd. apply NoDup_app in Hnd as (Hl & Hfresh & _).
    destruct (IH Hl) as [Hsize Hlook].
    assert (Hnone : zipOf l !! name x = None).
    { destruct (zipOf l !! name x) as [b |] eqn:E; [| done].
      apply Hlook in E as (i & Hi & Hn & _).
      destruct (Hfresh (name x)).
      - rewrite <- Hn. apply list_elem_of_fmap. eauto.
      - apply list_elem_of_here. }
    unfold zipOf in *. rewrite foldl_snoc. split.
    + rewrite map_size_insert_None, Hsize, length_app by done. cbn. lia.
    + intros n b. destruct (decide (name x = n)) as [<- | Hne].
      * rewrite lookup_insert_eq. split.
        -- intros [= <-]. exists x. split; [| done].
           apply elem_of_app. right. apply list_elem_of_here.
        -- intros (i & Hi & Hn & <-). f_equal.
           apply elem_of_app in Hi as [Hi | Hi%list_elem_of_singleton]; [| by subst].
           destruct (Hfresh (name x)).
           ++ rewrite <- Hn. apply list_elem_of_fmap. eauto.
           ++ apply list_elem_of_here.
      * rewrite lookup_insert_ne by done. rewrite Hlook. split.
        -- intros (i & Hi & Hn). exists i. split; [| done].
           apply elem_of_app. by left.
        -- intros (i & Hi & Hn & Hb).
           apply elem_of_app in Hi as [Hi | Hi%list_elem_of_singleton]; [eauto |].
           subst. done.
Qed.

Section Archive.
Context `{Platform}.

(** The names of the records of one run are pairwise different. *)
Lemma units_names_NoDup (p : Page) (s : State) (n i t : nat) :
  NoDup (name <$> units p s n i t).
Proof.
  apply NoDup_alt. intros a b nm Ha Hb.
  apply list_lookup_fmap_Some in Ha as (x & -> & Hx).
  apply list_lookup_fmap_Some in Hb as (y & Exy & Hy).
  apply units_lookup in Hx as [Hx _]. apply units_lookup in Hy as [Hy' _].
  rewrite Hx, Hy' in Exy. apply imageName_index_inj in Exy. lia.
Qed.

(** Names stay pairwise different throughout a session. *)
Lemma step_names_NoDup (s s' : State) :
  step s s' -> NoDup (name <$> images s) -> NoDup (name <$> images s').
Proof.
  intros [p clicks t s0 | idx s0 | s0 s1 E] Hnd.
  - destruct (rejected p s0) eqn:Hrej.
    + unfold generateImages. by rewrite Hrej.
    + rewrite generateImages_images by done.
      eapply sublist_NoDup; [apply units_names_NoDup |].
      apply fmap_sublist, sublist_take.
  - cbn. eapply sublist_NoDup; [exact Hnd |].
    apply fmap_sublist, sublist_delete.
  - by rewrite E.
Qed.

Lemma reachable_names_NoDup (s : State) :
  reachable s -> NoDup (name <$> images s).
Proof.
  unfold reachable. revert s.
  apply (rtc_ind_r (fun s => NoDup (name <$> images s)) initialState).
  - cbn. apply NoDup_nil_2.
  - intros s1 s2 _ Hstep IH. by eapply step_names_NoDup.
Qed.

(** C8. For the result list of every state the session can be in, the
    archive holds exactly one entry per held item and nothing else: as
    many entries as items, each item's blob unchanged under the item's
    name, and every entry is some item's name and blob. *)
Theorem downloadZip_exact (s : State) :
  reachable s ->
  size (downloadZip s) = length (images s)
  /\ (forall i : GenImg, i ∈ images s -> downloadZip s !! name i = Some (blob i))
  /\ (forall (n : string) (b : Blob),
        downloadZip s !! n = Some b ->
        exists i : GenImg, i ∈ images s /\ name i = n /\ blob i = b).
Proof.
  intros Hr. apply reachable_names_NoDup in Hr.
  destruct (zipOf_exact (images s) Hr) as [Hsize Hlook].
  change (downloadZip s) with (zipOf (images s)).
  repeat split.
  - exact Hsize.
  - intros i Hi. apply Hlook. eauto.
  - intros n b Hn. by apply Hlook.
Qed.

End Archive.

(** The archive of the sample run has its three entries. *)
Lemma downloadZip_exact_witness :
  let s := final (@generateImages samplePlatform forge noClicks sampleState 0) in
  @reachable samplePlatform s
  /\ size (downloadZip s) = 3%nat.
Proof.
  intros s.
  assert (Hr : @reachable samplePlatform s).
  { unfold reachable. eapply rtc_l; [| apply rtc_once].
    - apply (@step_edit samplePlatform initialState sampleState). reflexivity.
    - apply (@step_generate samplePlatform forge noClicks 0%nat sampleState). }
  split; [exact Hr |].
  apply (proj1 (@downloadZip_exact samplePlatform s Hr)).
Defined.

(** ** Fabricated coordinates *)

Section Coordinates.
Context `{Platform}.

(** The angle handed to [degToDmsRational]: an integer degree in 0..top
    plus a fraction below one; in exact arithmetic it stays below
    top + 1 (the rounded sum of the code can reach top + 1). *)
Lemma randomDegrees_range (top : Z) (t : nat) :
  unit_draws -> 0 <= top ->
  exists (d : Z) (q : Q),
    randomDegrees top t = (q, (2 + t)%nat)
    /\ q = (inject_Z d + Math_random (S t))%Q
    /\ 0 <= d <= top
    /\ (0 <= q)%Q /\ (q < inject_Z top + 1)%Q.
Proof.
  intros Hd Htop. unfold randomDegrees, bind.
  destruct (randInt_spec Hd 0 top t Htop) as (d & -> & Hrange).
  destruct (Hd (S t)) as [Hf0 Hf1].
  exists d, (inject_Z d + Math_random (S t))%Q. cbn.
  repeat split; try lia.
  - change 0%Q with (0 + 0)%Q. apply Qplus_le_compat; [| exact Hf0].
    change 0%Q with (inject_Z 0). rewrite <- Zle_Qle. lia.
  - apply Qle_lt_trans with (inject_Z top + Math_random (S t))%Q.
    + apply Qplus_le_compat; [| apply Qle_refl]. rewrite <- Zle_Qle. lia.
    + by apply Qplus_lt_r.
Qed.

(** The latitude and longitude of a block are the encodings of two such
    angles, with tops 90 and 180. *)
Lemma randomExif_coordinates (t : nat) :
  GPSLatitude (randomExif t).1
  = piexif_degToDmsRational (randomDegrees 90 (3 + t)%nat).1
  /\ GPSLongitude (randomExif t).1
     = piexif_degToDmsRational (randomDegrees 180 (5 + t)%nat).1
  /\ GPSLatitudeRef (randomExif t).1 = "N"
  /\ GPSLongitudeRef (randomExif t).1 = "E".
Proof. repeat split. Qed.

End Coordinates.

(** C5. The latitude is meant to stay within 0..90 degrees North, but
    the integer part already reaches 90 and the fraction comes on top.
    With the draw 255/256 for the degree and 1/2 for the fraction, the
    angle encoded as the latitude of the first image of the sample run
    is 90.5 degrees, that is 90 degrees 30 minutes North. *)
Theorem latitude_exceeds_90 :
  @randomDegrees samplePlatform 90 4%nat = (181 # 2, 6%nat)
  /\ (90 < 181 # 2)%Q
  /\ exists (img : GenImg) (e : ExifObj),
       images (final (@generateImages samplePlatform forge noClicks sampleState 0))
         !! 0%nat = Some img
       /\ exif img = Some e
       /\ GPSLatitudeRef e = "N"
       /\ GPSLatitude e = @piexif_degToDmsRational samplePlatform (181 # 2)
       /\ GPSLatitude e = [(90, 1); (30, 1); (0, 100)].
Proof.
  split; [reflexivity |]. split; [reflexivity |].
  vm_compute. eexists. eexists. repeat split.
Qed.

(** * Further properties of the pages *)

(** ** Draws and sizes *)

Section MoreSizes.
Context `{Platform}.

(** X1. With draws in the unit interval, [randInt min max] takes one
    draw and answers an integer between [min] and [max], both included. *)
Theorem randInt_bounds (lo hi : Z) (t : nat) :
  unit_draws -> lo <= hi ->
  lo <= (randInt lo hi t).1 <= hi /\ (randInt lo hi t).2 = S t.
Proof.
  intros Hd Hle. destruct (randInt_spec Hd lo hi t Hle) as (d & -> & Hr).
  cbn. split; [exact Hr | reflexivity].
Qed.

(** X2. In random mode the picked size is positive, between 670 and 3890
    pixels each way, and the offsets never turn a preset over: the image
    is wider than high exactly when the first draw exceeds 1/2. *)
Theorem pickSize_random_orientation (s : State) (t : nat) :
  unit_draws -> randomSize s = true ->
  exists w h : Z,
    pickSize s t = (Some (w, h), (4 + t)%nat)
    /\ 670 <= w <= 3890 /\ 670 <= h <= 3890
    /\ (if Qgtb (Math_random t) (1 # 2) then h < w else w < h).
Proof.
  intros Hd Hrand.
  destruct (pickSize_random Hd s t Hrand)
    as ([bw bh] & ow & oh & Hin & _ & _ & Row & Roh & E).
  exists (bw + ow), (bh + oh). split; [exact E |].
  destruct (Qgtb (Math_random t) (1 # 2));
    unfold landscapeSizes, portraitSizes in Hin;
    repeat (apply elem_of_cons in Hin as [[= -> ->] | Hin]);
    try (by apply elem_of_nil in Hin); lia.
Qed.

End MoreSizes.

Lemma randInt_bounds_witness :
  0 <= (@randInt samplePlatform 0 359 0%nat).1 <= 359.
Proof.
  apply (@randInt_bounds samplePlatform 0 359 0%nat sample_unit_draws).
  lia.
Defined.

Lemma pickSize_random_orientation_witness :
  exists w h : Z,
    @pickSize samplePlatform
       (mkState 1 jpg true 1920 1080 false None 0 false false 0 []) 0%nat
    = (Some (w, h), 4%nat)
    /\ 670 <= w <= 3890 /\ 670 <= h <= 3890 /\ w < h.
Proof.
  destruct (@pickSize_random_orientation samplePlatform
              (mkState 1 jpg true 1920 1080 false None 0 false false 0 [])
              0%nat sample_unit_draws eq_refl)
    as (w & h & E & Hw & Hh & Ho).
  exists w, h. repeat split; try apply Hw; try apply Hh; assumption.
Defined.

(** ** Padding *)

(** Closed form of [inflateBlob]: the input followed by as many zero
    bytes as the target exceeds its size. *)
Lemma inflateBlob_closed (b : Blob) (targetBytes : Z) :
  inflateBlob b targetBytes
  = mkBlob (blob_bytes b ++ repeat x00 (Z.to_nat (targetBytes - blob_size b)))
           (blob_type b).
Proof.
  unfold inflateBlob.
  destruct (Z.eqb_spec targetBytes 0) as [-> | Hnz]; cbn [orb].
  - replace (Z.to_nat (0 - blob_size b)) with 0%nat by (unfold blob_size; lia).
    cbn. rewrite app_nil_r. by destruct b.
  - destruct (Z.leb_spec targetBytes (blob_size b)) as [Hle | Hgt]; [| done].
    replace (Z.to_nat (targetBytes - blob_size b)) with 0%nat by lia.
    cbn. rewrite app_nil_r. by destruct b.
Qed.

(** X3. Inflating twice is inflating once to the larger target; in
    particular inflating again to the same target changes nothing. *)
Theorem inflateBlob_twice (b : Blob) (t1 t2 : Z) :
  inflateBlob (inflateBlob b t1) t2 = inflateBlob b (Z.max t1 t2)
  /\ inflateBlob (inflateBlob b t1) t1 = inflateBlob b t1.
Proof.
  assert (Hgen : forall u1 u2,
             inflateBlob (inflateBlob b u1) u2 = inflateBlob b (Z.max u1 u2)).
  { intros u1 u2. rewrite !inflateBlob_closed.
    unfold blob_size. cbn [blob_bytes blob_type].
    rewrite length_app, repeat_length, <- app_assoc, <- repeat_app.
    f_equal. f_equal. f_equal. lia. }
  split; [apply Hgen |]. by rewrite Hgen, Z.max_id.
Qed.

(** ** The records of a run *)

Section Items.
Context `{Platform}.

Lemma units_elem (p : Page) (s : State) (n i t : nat) (img : GenImg) :
  img ∈ units p s n i t ->
  exists j t0 t1, renderUnit p s (i + j) t0 = (Some img, t1).
Proof.
  revert i t. induction n as [| n IH]; intros i t; cbn.
  - intros Hin. by apply elem_of_nil in Hin.
  - destruct (renderUnit p s i t) as [[first |] t'] eqn:E.
    + intros [-> | Hin]%elem_of_cons.
      * exists 0%nat, t, t'. by rewrite Nat.add_0_r.
      * destruct (IH _ _ Hin) as (j & t0 & t1 & Hj).
        exists (S j), t0, t1. by rewrite Nat.add_succ_r.
    + intros Hin. by apply elem_of_nil in Hin.
Qed.

(** Every record in the list a run leaves was pushed by one of its units. *)
Lemma item_from_unit (p : Page) (clicks : nat -> bool) (s : State) (t : nat)
    (img : GenImg) :
  rejected p s = false ->
  img ∈ images (final (generateImages p clicks s t)) ->
  exists i t0 t1, renderUnit p s i t0 = (Some img, t1).
Proof.
  intros Hrej Hin. rewrite generateImages_images in Hin by done.
  apply subseteq_take in Hin. apply units_elem in Hin as (j & t0 & t1 & E).
  eauto.
Qed.

(** How the fields of one pushed record hang together. *)
Lemma renderUnit_payload (p : Page) (s : State) (i t t' : nat) (img : GenImg) :
  renderUnit p s i t = (Some img, t') ->
  (pickSize s t).1 = Some (img_width img, img_height img)
  /\ exists fill : string,
       let raw := toDataURL (paint p (img_width img) (img_height img) fill
                                   (uuid img))
                            (mimeOf (format s)) in
       blob img
       = finishBlob p s
           (fetchBlob (match exif img with
                       | Some e => piexif_insert (piexif_dump e) raw
                       | None => raw
                       end)).
Proof.
  unfold renderUnit, bind.
  destruct (pickSize s t) as [[[w h] |] t1]; [| by unfold ret].
  destruct (draw randomUUID_head t1) as [u t2].
  destruct (backgroundFill p s t2) as [fill t3].
  destruct (withExif s && Format_eqb (format s) jpg);
    try (destruct (randomExif t3) as [e t4]);
    unfold ret; cbn [fst snd];
    match goal with |- context [draw createObjectURL ?k] =>
      destruct (draw createObjectURL k) as [hd t5] end;
    intros [= <- <-]; cbn [blob uuid img_width img_height exif];
    (split; [reflexivity | by exists fill]).
Qed.

(** X4. Whatever is pushed is what was rendered: the payload of every
    item of a run is the encoding of a canvas of the item's own width,
    height and short id in the format's media type, with the item's own
    metadata block spliced in when it has one (and inflated in [forge]). *)
Theorem item_payload (p : Page) (clicks : nat -> bool) (s : State) (t : nat)
    (img : GenImg) :
  rejected p s = false ->
  img ∈ images (final (generateImages p clicks s t)) ->
  exists fill : string,
    let raw := toDataURL (paint p (img_width img) (img_height img) fill
                                (uuid img))
                         (mimeOf (format s)) in
    blob img
    = finishBlob p s
        (fetchBlob (match exif img with
                    | Some e => piexif_insert (piexif_dump e) raw
                    | None => raw
                    end)).
Proof.
  intros Hrej Hin.
  destruct (item_from_unit p clicks s t img Hrej Hin) as (i & t0 & t1 & E).
  by apply renderUnit_payload in E as [_ Hp].
Qed.

(** X5. In [forge] no item of a run is smaller than the target size. *)
Theorem item_meets_target (clicks : nat -> bool) (s : State) (t : nat)
    (img : GenImg) :
  rejected forge s = false ->
  img ∈ images (final (generateImages forge clicks s t)) ->
  targetSize s <= blob_size (blob img).
Proof.
  intros Hrej Hin.
  destruct (item_from_unit forge clicks s t img Hrej Hin) as (i & t0 & t1 & E).
  apply renderUnit_payload in E as [_ (fill & ->)].
  cbn [finishBlob]. rewrite inflateBlob_closed.
  unfold blob_size. cbn [blob_bytes].
  rewrite length_app, repeat_length. lia.
Qed.

(** X6. In fixed mode, after a size badge was clicked, every item of a
    run has exactly that width and height. *)
Theorem fixed_size_items (p : Page) (clicks : nat -> bool) (s : State) (t : nat)
    (size : Z * Z) (img : GenImg) :
  randomSize s = false ->
  rejected p s = false ->
  img ∈ images (final (generateImages p clicks (setSize size s) t)) ->
  img_width img = size.1 /\ img_height img = size.2.
Proof.
  intros Hfix Hrej Hin.
  destruct (item_from_unit p clicks (setSize size s) t img) as (i & t0 & t1 & E);
    [by destruct p | exact Hin |].
  apply renderUnit_payload in E as [Hsz _].
  unfold pickSize in Hsz. cbn [randomSize setSize] in Hsz. rewrite Hfix in Hsz.
  cbn in Hsz. by injection Hsz as <- <-.
Qed.

(** X7. In random mode every item of a run is between 670 and 3890
    pixels each way. *)
Theorem random_size_items (p : Page) (clicks : nat -> bool) (s : State) (t : nat)
    (img : GenImg) :
  unit_draws -> randomSize s = true ->
  rejected p s = false ->
  img ∈ images (final (generateImages p clicks s t)) ->
  670 <= img_width img <= 3890 /\ 670 <= img_height img <= 3890.
Proof.
  intros Hd Hrand Hrej Hin.
  destruct (item_from_unit p clicks s t img Hrej Hin) as (i & t0 & t1 & E).
  apply renderUnit_payload in E as [Hsz _].
  destruct (pickSize_random Hd s t0 Hrand)
    as ([bw bh] & ow & oh & Hbase & _ & _ & Row & Roh & Ep).
  rewrite Ep in Hsz. cbn in Hsz. injection Hsz as <- <-.
  destruct (Qgtb (Math_random t0) (1 # 2));
    unfold landscapeSizes, portraitSizes in Hbase;
    repeat (apply elem_of_cons in Hbase as [[= -> ->] | Hbase]);
    try (by apply elem_of_nil in Hbase); lia.
Qed.

End Items.

Lemma item_payload_witness :
  exists (img : GenImg) (fill : string),
    img ∈ images (final (@generateImages samplePlatform forge noClicks sampleState 0))
    /\ blob img
       = finishBlob forge sampleState
           (fetchBlob
              (match exif img with
               | Some e =>
                   @piexif_insert samplePlatform (@piexif_dump samplePlatform e)
                     (@toDataURL samplePlatform
                        (paint forge (img_width img) (img_height img) fill (uuid img))
                        (mimeOf (format sampleState)))
               | None =>
                   @toDataURL samplePlatform
                     (paint forge (img_width img) (img_height img) fill (uuid img))
                     (mimeOf (format sampleState))
               end)).
Proof.
  assert (Hin : exists img : GenImg,
             img ∈ images (final (@generateImages samplePlatform forge noClicks
                                     sampleState 0))).
  { vm_compute. eexists. apply list_elem_of_here. }
  destruct Hin as [img Hin].
  destruct (@item_payload samplePlatform forge noClicks sampleState 0%nat img
              eq_refl Hin) as (fill & E).
  exists img, fill. split; [exact Hin | exact E].
Defined.

(** Two PNGs padded to 1 KB. *)
Lemma item_meets_target_witness :
  let s := mkState 2 png false 640 480 false (Some "#336699") 1024
                   false false 0 [] in
  exists img : GenImg,
    img ∈ images (final (@generateImages samplePlatform forge noClicks s 0))
    /\ 1024 <= blob_size (blob img).
Proof.
  intros s.
  assert (Hin : exists img : GenImg,
             img ∈ images (final (@generateImages samplePlatform forge noClicks s 0))).
  { vm_compute. eexists. apply list_elem_of_here. }
  destruct Hin as [img Hin]. exists img. split; [exact Hin |].
  apply (@item_meets_target samplePlatform noClicks s 0%nat img eq_refl Hin).
Defined.

Lemma fixed_size_items_witness :
  exists img : GenImg,
    img ∈ images (final (@generateImages samplePlatform pages noClicks
                            (setSize (1280, 720) sampleState) 0))
    /\ img_width img = 1280 /\ img_height img = 720.
Proof.
  assert (Hin : exists img : GenImg,
             img ∈ images (final (@generateImages samplePlatform pages noClicks
                                     (setSize (1280, 720) sampleState) 0))).
  { vm_compute. eexists. apply list_elem_of_here. }
  destruct Hin as [img Hin]. exists img. split; [exact Hin |].
  apply (@fixed_size_items samplePlatform pages noClicks sampleState 0%nat
           (1280, 720) img eq_refl eq_refl Hin).
Defined.

Lemma random_size_items_witness :
  let s := mkState 2 png true 1920 1080 false None 0 false false 0 [] in
  exists img : GenImg,
    img ∈ images (final (@generateImages samplePlatform pages noClicks s 0))
    /\ 670 <= img_width img <= 3890 /\ 670 <= img_height img <= 3890.
Proof.
  intros s.
  assert (Hin : exists img : GenImg,
             img ∈ images (final (@generateImages samplePlatform pages noClicks s 0))).
  { vm_compute. eexists. apply list_elem_of_here. }
  destruct Hin as [img Hin]. exists img. split; [exact Hin |].
  apply (@random_size_items samplePlatform pages noClicks s 0%nat img
           sample_unit_draws eq_refl eq_refl Hin).
Defined.

(** ** What a run reads and what it writes *)

Section Frame.
Context `{Platform}.

Lemma startRun_settings (s s' : State) :
  settings s = settings s' -> startRun s = startRun s'.
Proof.
  destruct s, s'. unfold settings. cbn. intros [= -> -> -> -> -> -> -> ->].
  reflexivity.
Qed.

(** X8. A run that starts depends on the settings only: the previous
    result list, a stale cancellation flag, the old progress index and
    the old generating flag are all overwritten before the first unit. *)
Theorem generateImages_only_settings (p : Page) (clicks : nat -> bool)
    (s s' : State) (t : nat) :
  settings s = settings s' -> rejected p s = false ->
  generateImages p clicks s t = generateImages p clicks s' t.
Proof.
  intros E Hrej.
  assert (Ec : count s = count s' /\ rejected p s' = rejected p s).
  { destruct s, s', p; unfold settings in E; cbn in *;
      injection E as -> -> -> -> -> -> -> ->; done. }
  destruct Ec as [Ec Er].
  unfold generateImages. rewrite Er, Hrej, Ec, (startRun_settings s s' E).
  reflexivity.
Qed.

(** X9. No run, started or rejected, returned or thrown, cancelled or
    not, changes a setting. *)
Theorem generateImages_keeps_settings (p : Page) (clicks : nat -> bool)
    (s : State) (t : nat) :
  settings (final (generateImages p clicks s t)) = settings s.
Proof.
  unfold generateImages. destruct (rejected p s); [done |].
  destruct (generateLoop_images p clicks (Z.to_nat (count s)) 0 (startRun s) t
              eq_refl) as (_ & Hset & _).
  destruct (generateLoop _ _ _ _ _ _) as [s' | s']; cbn [final] in *.
  - transitivity (settings s'); [| exact Hset].
    unfold endRun. by destruct (cancelRequested s').
  - exact Hset.
Qed.


(** X11. A count of zero or below is not an error: the run returns at
    once with an empty list, the progress index on its last step and the
    generating flag down. *)
Theorem generateImages_nonpositive_count (p : Page) (clicks : nat -> bool)
    (s : State) (t : nat) :
  count s <= 0 -> rejected p s = false ->
  generateImages p clicks s t = Returned (endRun (startRun s))
  /\ images (endRun (startRun s)) = []
  /\ stepIdx (endRun (startRun s)) = 10
  /\ isGenerating (endRun (startRun s)) = false.
Proof.
  intros Hc Hrej. unfold generateImages. rewrite Hrej.
  replace (Z.to_nat (count s)) with 0%nat by lia. done.
Qed.

End Frame.

Lemma generateImages_only_settings_witness :
  @generateImages samplePlatform forge noClicks sampleState 0
  = @generateImages samplePlatform forge noClicks
      (cancelGeneration
         (set_images (images (final (@generateImages samplePlatform forge noClicks
                                        sampleState 0)))
                     sampleState)) 0.
Proof.
  apply (@generateImages_only_settings samplePlatform forge noClicks); reflexivity.
Defined.


Lemma generateImages_nonpositive_count_witness :
  let s := mkState 0 jpg true 1920 1080 false None 0 false false 3 [] in
  exists s' : State,
    @generateImages samplePlatform pages noClicks s 0 = Returned s'
    /\ images s' = [] /\ stepIdx s' = 10.
Proof.
  intros s.
  destruct (@generateImages_nonpositive_count samplePlatform pages noClicks s 0%nat
              ltac:(cbn; lia) eq_refl) as (E & Hi & Hs & _).
  exists (endRun (startRun s)). repeat split; assumption.
Defined.

(** ** Progress *)

Lemma progressStep_range (i : nat) (s : State) :
  0 < count s -> 0 <= progressStep i s <= 9.
Proof.
  intros Hc. unfold progressStep. split; [| lia].
  apply Z.min_glb; [| lia].
  change 0 with (Qfloor 0). apply Qfloor_resp_le.
  apply Qmult_le_0_compat; [| done].
  apply Qmult_le_0_compat.
  - change 0%Q with (inject_Z 0). rewrite <- Zle_Qle. lia.
  - apply Qinv_le_0_compat. change 0%Q with (inject_Z 0). rewrite <- Zle_Qle. lia.
Qed.

(** The step shown while the last of [n] units is generated is 9. *)
Lemma progressStep_last (n : nat) (s : State) :
  count s = Z.of_nat (S n) -> progressStep n s = 9.
Proof.
  intros Hc. unfold progressStep. rewrite Hc.
  replace (Z.of_nat n + 1) with (Z.of_nat (S n)) by lia.
  assert (E : (inject_Z (Z.of_nat (S n)) / inject_Z (Z.of_nat (S n)) * 10
               == inject_Z 10)%Q).
  { unfold Qdiv. rewrite Qmult_inv_r; [reflexivity |].
    intros Hz. unfold Qeq in Hz. cbn [Qnum Qden inject_Z] in Hz. lia. }
  rewrite E, Qfloor_Z. reflexivity.
Qed.

Section Progress.
Context `{Platform}.

Lemma generateLoop_stepIdx_range (p : Page) (clicks : nat -> bool) (n i : nat)
    (s : State) (t : nat) :
  (n <> 0%nat -> 0 < count s) ->
  0 <= stepIdx s <= 9 ->
  0 <= stepIdx (final (generateLoop p clicks n i s t)) <= 9.
Proof.
  revert i s t. induction n as [| n IH]; intros i s t Hc Hs; [done |].
  cbn [generateLoop]. destruct (cancelRequested s); [done |].
  pose proof (progressStep_range i s (Hc ltac:(done))) as Hp.
  set (s1 := set_stepIdx (progressStep i s) s).
  destruct (renderUnit p s1 i t) as [[img |] t']; [| done].
  apply IH; [intros _; destruct (clicks i); cbn; by apply Hc |].
  destruct (clicks i); exact Hp.
Qed.

Lemma generateLoop_S (p : Page) (clicks : nat -> bool) (n i : nat)
    (s : State) (t : nat) :
  generateLoop p clicks (S n) i s t
  = if cancelRequested s then Returned s
    else
      let s1 := set_stepIdx (progressStep i s) s in
      match renderUnit p s1 i t with
      | (None, _) => Threw s1
      | (Some img, t') =>
          let s2 := if clicks i then set_cancelRequested true s1 else s1 in
          generateLoop p clicks n (S i) (set_images (images s2 ++ [img]) s2) t'
      end.
Proof. reflexivity. Qed.

(** Where the progress index stands when the loop is left. *)
Lemma generateLoop_stepIdx_last (p : Page) (clicks : nat -> bool) (n i : nat)
    (s : State) (t : nat) :
  unit_draws -> cancelRequested s = false ->
  stepIdx (final (generateLoop p clicks (S n) i s t))
  = progressStep (i + executed clicks (S n) i - 1) s.
Proof.
  intros Hd. revert i s t. induction n as [| n IH]; intros i s t Hc.
  - cbn [generateLoop executed]. rewrite Hc.
    destruct (renderUnit_total p (set_stepIdx (progressStep i s) s) i t Hd)
      as (img & t' & ->).
    replace (i + (if clicks i then 1 else 1) - 1)%nat with i
      by (destruct (clicks i); lia).
    by destruct (clicks i).
  - rewrite generateLoop_S, Hc. cbn zeta.
    set (s1 := set_stepIdx (progressStep i s) s).
    destruct (renderUnit_total p s1 i t Hd) as (img & t' & ->).
    change (executed clicks (S (S n)) i)
      with (if clicks i then 1%nat else S (executed clicks (S n) (S i))).
    destruct (clicks i) eqn:Eclick.
    + rewrite generateLoop_cancelled by done. cbn.
      by replace (i + 1 - 1)%nat with i by lia.
    + rewrite IH by done.
      remember (executed clicks (S n) (S i)) as e.
      replace (i + S e - 1)%nat with (S i + e - 1)%nat by lia.
      reflexivity.
Qed.

(** X12. After a run that started, the progress index is a valid
    position of the status table (0..10); a run that returned has it on
    10 exactly when it was not cancelled, and has the generating flag
    down. *)
Theorem stepIdx_in_statusSteps (p : Page) (clicks : nat -> bool) (s : State)
    (t : nat) :
  rejected p s = false ->
  0 <= stepIdx (final (generateImages p clicks s t)) <= 10
  /\ is_Some (statusSteps !! Z.to_nat (stepIdx (final (generateImages p clicks s t))))
  /\ (forall s', generateImages p clicks s t = Returned s' ->
        (stepIdx s' = 10 <-> cancelRequested s' = false)
        /\ isGenerating s' = false).
Proof.
  intros Hrej.
  assert (Hrange : 0 <= stepIdx (final (generateImages p clicks s t)) <= 10
            /\ (forall s', generateImages p clicks s t = Returned s' ->
                  (stepIdx s' = 10 <-> cancelRequested s' = false)
                  /\ isGenerating s' = false)).
  { unfold generateImages. rewrite Hrej.
    pose proof (generateLoop_stepIdx_range p clicks (Z.to_nat (count s)) 0
                  (startRun s) t) as Hr.
    destruct (generateLoop _ _ _ _ _ _) as [s1 | s1]; cbn [final] in *.
    - assert (H9 : 0 <= stepIdx s1 <= 9)
        by (apply Hr; [cbn; lia | cbn; lia]).
      unfold endRun. destruct (cancelRequested s1) eqn:Ec; cbn.
      + split; [lia |]. intros s' [= <-]. cbn. rewrite Ec.
        split; [split; [lia | done] | done].
      + split; [lia |]. intros s' [= <-]. cbn. rewrite Ec. done.
    - split; [| done].
      assert (H9 : 0 <= stepIdx s1 <= 9)
        by (apply Hr; [cbn; lia | cbn; lia]).
      lia. }
  destruct Hrange as [Hr Hret]. split; [exact Hr |]. split; [| exact Hret].
  apply lookup_lt_is_Some. cbn [statusSteps length]. lia.
Qed.

(** X13. A Cancel click that arrives while the last unit is suspended
    comes too late to drop anything: the run returns all N entries, but
    it counts as cancelled, and the progress index stays on 9. *)
Theorem cancel_in_last_unit (p : Page) (clicks : nat -> bool) (s : State)
    (t N : nat) :
  unit_draws ->
  count s = Z.of_nat N -> rejected p s = false ->
  flagAfter clicks N = true ->
  (forall j, (j < N)%nat -> flagAfter clicks j = false) ->
  exists s', generateImages p clicks s t = Returned s'
    /\ images s' = images (final (generateImages p (fun _ => false) s t))
    /\ length (images s') = N
    /\ cancelRequested s' = true
    /\ stepIdx s' = 9.
Proof.
  intros Hd Hcount Hrej Hup Hclear.
  destruct (executed_first_flag clicks N N Hup Hclear ltac:(lia))
    as (Hex & m & HN & Hclick).
  pose proof (generateImages_images p clicks s t Hrej) as Him.
  pose proof (generateImages_images p (fun _ => false) s t Hrej) as Hfull.
  rewrite Hcount, Nat2Z.id in Him, Hfull. rewrite Hex in Him.
  rewrite executed_noClicks in Hfull. rewrite Hfull, <- Him.
  assert (Hlen : length (images (final (generateImages p clicks s t))) = N).
  { rewrite Him, firstn_all2 by apply units_length_le. by apply units_length. }
  revert Him Hlen. unfold generateImages. rewrite Hrej, Hcount, Nat2Z.id.
  destruct (generateLoop_returns p clicks N 0 (startRun s) t Hd)
    as (s1 & E & Hflag).
  pose proof (generateLoop_stepIdx_last p clicks m 0 (startRun s) t Hd eq_refl)
    as Hstep.
  rewrite <- HN, Hex, E in Hstep. rewrite E. cbn [final] in *.
  intros Him Hlen.
  assert (Hset : cancelRequested s1 = true).
  { rewrite Hflag. cbn. apply existsb_exists. exists m.
    split; [apply in_seq; lia | done]. }
  exists (endRun s1). repeat split; [exact Hlen | |].
  - unfold endRun. by rewrite Hset.
  - unfold endRun. rewrite Hset. cbn. rewrite Hstep.
    replace (0 + N - 1)%nat with m by lia.
    apply progressStep_last. cbn. lia.
Qed.

End Progress.

Lemma stepIdx_in_statusSteps_witness :
  is_Some (statusSteps
             !! Z.to_nat (stepIdx (final (@generateImages samplePlatform forge
                                             (fun i => Nat.eqb i 1) sampleState 0)))).
Proof.
  apply (@stepIdx_in_statusSteps samplePlatform forge (fun i => Nat.eqb i 1)
           sampleState 0%nat eq_refl).
Defined.

Lemma cancel_in_last_unit_witness :
  exists s' : State,
    @generateImages samplePlatform pages (fun i => Nat.eqb i 2) sampleState 0
    = Returned s'
    /\ length (images s') = 3%nat
    /\ cancelRequested s' = true
    /\ stepIdx s' = 9.
Proof.
  assert (Hclear : forall j, (j < 3)%nat ->
                     flagAfter (fun i => Nat.eqb i 2) j = false).
  { intros [| [| [| j]]] Hj; [reflexivity | reflexivity | reflexivity | lia]. }
  destruct (@cancel_in_last_unit samplePlatform pages (fun i => Nat.eqb i 2)
              sampleState 0 3 sample_unit_draws eq_refl eq_refl eq_refl Hclear)
    as (s' & E & _ & L & Hc & Hs).
  exists s'. repeat split; assumption.
Defined.

(** ** Deleting an image *)

Lemma zipOf_delete (l : list GenImg) (idx : nat) (img : GenImg) :
  NoDup (name <$> l) -> l !! idx = Some img ->
  zipOf (delete idx l) = delete (name img) (zipOf l).
Proof.
  intros Hnd Hl.
  assert (Hnd' : NoDup (name <$> delete idx l)).
  { eapply sublist_NoDup; [exact Hnd |]. apply fmap_sublist, sublist_delete. }
  destruct (zipOf_exact l Hnd) as [_ Hl1].
  destruct (zipOf_exact _ Hnd') as [_ Hl2].
  apply map_eq. intros n. apply option_eq. intros b.
  rewrite Hl2, lookup_delete_Some, Hl1.
  pose proof (take_drop_middle l idx img Hl) as Hsplit.
  rewrite delete_take_drop.
  rewrite <- Hsplit, fmap_app, fmap_cons in Hnd.
  apply NoDup_app in Hnd as (_ & Hfresh1 & Hnd2).
  apply NoDup_cons in Hnd2 as [Hfresh2 _].
  split.
  - intros (i & Hi & Hn & Hb). split.
    + intros Heq. apply elem_of_app in Hi as [Hi | Hi].
      * apply (Hfresh1 (name i)); [apply list_elem_of_fmap; eauto |].
        rewrite Hn, <- Heq. apply list_elem_of_here.
      * apply Hfresh2. rewrite Heq, <- Hn. apply list_elem_of_fmap. eauto.
    + exists i. split; [| done]. rewrite <- Hsplit.
      apply elem_of_app in Hi as [Hi | Hi]; apply elem_of_app;
        [by left | right; by apply list_elem_of_further].
  - intros (Hne & i & Hi & Hn & Hb). exists i. split; [| done].
    rewrite <- Hsplit in Hi.
    apply elem_of_app in Hi as [Hi | [-> | Hi]%elem_of_cons];
      [apply elem_of_app; by left | done | apply elem_of_app; by right].
Qed.

Section Deleting.
Context `{Platform}.

(** X14. Deleting the image at a held position removes exactly its entry
    from the next archive: the archive of the remaining list is the old
    archive without that image's name, one entry smaller, and the
    session goes on from there. *)
Theorem deleteImage_archive (s : State) (idx : nat) (img : GenImg) :
  reachable s -> images s !! idx = Some img ->
  downloadZip (deleteImage idx s) = delete (name img) (downloadZip s)
  /\ downloadZip (deleteImage idx s) !! name img = None
  /\ S (size (downloadZip (deleteImage idx s))) = length (images s)
  /\ reachable (deleteImage idx s).
Proof.
  intros Hr Hl.
  pose proof (reachable_names_NoDup s Hr) as Hnd.
  assert (E : downloadZip (deleteImage idx s) = delete (name img) (downloadZip s)).
  { change (zipOf (delete idx (images s)) = delete (name img) (zipOf (images s))).
    by apply zipOf_delete. }
  assert (Hr' : reachable (deleteImage idx s)).
  { unfold reachable. eapply rtc_r; [exact Hr | apply step_delete]. }
  split; [exact E |]. split; [rewrite E; apply lookup_delete_eq |].
  split; [| exact Hr'].
  pose proof (reachable_names_NoDup _ Hr') as Hnd'.
  destruct (zipOf_exact _ Hnd') as [Hsize _].
  change (downloadZip (deleteImage idx s)) with (zipOf (images (deleteImage idx s))).
  rewrite Hsize. cbn [images deleteImage set_images].
  rewrite length_delete by eauto.
  apply lookup_lt_Some in Hl. lia.
Qed.

End Deleting.

(** The second of the three sample images is deleted. *)
Lemma deleteImage_archive_witness :
  let s := final (@generateImages samplePlatform forge noClicks sampleState 0) in
  exists img : GenImg,
    images s !! 1%nat = Some img
    /\ downloadZip (deleteImage 1 s) !! name img = None
    /\ S (size (downloadZip (deleteImage 1 s))) = length (images s).
Proof.
  intros s.
  assert (Hr : @reachable samplePlatform s).
  { unfold reachable. eapply rtc_l; [| apply rtc_once].
    - apply (@step_edit samplePlatform initialState sampleState). reflexivity.
    - apply (@step_generate samplePlatform forge noClicks 0%nat sampleState). }
  assert (Hl : exists img, images s !! 1%nat = Some img).
  { vm_compute. eexists. reflexivity. }
  destruct Hl as (img & Hl).
  destruct (@deleteImage_archive samplePlatform s 1 img Hr Hl)
    as (_ & Hnone & Hsize & _).
  exists img. split; [exact Hl |]. split; [exact Hnone | exact Hsize].
Defined.

(** ** The RAM safeguard beyond the menu *)

Lemma estimatedImageSize_pos (s : State) :
  0 <= targetSize s -> 0 < estimatedImageSize s.
Proof. unfold estimatedImageSize. destruct (Z.eqb_spec (targetSize s) 0); lia. Qed.

Lemma maxCountAllowed_bounds (s : State) :
  0 <= targetSize s <= MAX_RAM_BYTES ->
  1 <= maxCountAllowed s
  /\ maxCountAllowed s * estimatedImageSize s <= MAX_RAM_BYTES
  /\ MAX_RAM_BYTES < (maxCountAllowed s + 1) * estimatedImageSize s.
Proof.
  intros [H0 Hmax].
  pose proof (estimatedImageSize_pos s H0) as Hpos.
  assert (Hle : estimatedImageSize s <= MAX_RAM_BYTES).
  { unfold estimatedImageSize, MAX_RAM_BYTES in *.
    destruct (Z.eqb_spec (targetSize s) 0); lia. }
  assert (Hq : 1 <= MAX_RAM_BYTES / estimatedImageSize s).
  { apply Z.div_le_lower_bound; lia. }
  unfold maxCountAllowed. rewrite Z.max_r by lia.
  pose proof (Z.mul_div_le MAX_RAM_BYTES _ Hpos).
  pose proof (Z.mul_succ_div_gt MAX_RAM_BYTES _ Hpos).
  split; [lia |]. split; lia.
Qed.

(** X15. For every target size up to the ceiling (auto included) the
    allowed maximum is at least 1, every count up to it passes the
    safeguard, and one image more does not: it is the largest whole
    number of images that fits in 500 MB. *)
Theorem maxCountAllowed_largest (s : State) :
  0 <= targetSize s <= MAX_RAM_BYTES ->
  1 <= maxCountAllowed s
  /\ (forall c : Z,
        c <= maxCountAllowed s -> isOverRamLimit (set_count c s) = false)
  /\ isOverRamLimit (set_count (maxCountAllowed s + 1) s) = true.
Proof.
  intros Ht. destruct (maxCountAllowed_bounds s Ht) as (H1 & Hfit & Hnext).
  pose proof (estimatedImageSize_pos s (proj1 Ht)) as Hpos.
  split; [exact H1 |]. unfold isOverRamLimit, totalEstimatedBytes. split.
  - intros c Hc.
    change (estimatedImageSize (set_count c s)) with (estimatedImageSize s).
    cbn [count set_count]. apply Z.ltb_ge. nia.
  - change (estimatedImageSize (set_count (maxCountAllowed s + 1) s))
      with (estimatedImageSize s).
    cbn [count set_count]. apply Z.ltb_lt. lia.
Qed.

(** X16. For every target size up to the ceiling, the watcher leaves a
    state that is not over the limit and the smaller of the count and
    the allowed maximum as the count; a state over the limit has its
    count lowered to the allowed maximum; running the watcher again
    changes nothing. *)
Theorem enforceMaxCount_clamps (s : State) :
  0 <= targetSize s <= MAX_RAM_BYTES ->
  isOverRamLimit (enforceMaxCount s) = false
  /\ count (enforceMaxCount s) = Z.min (count s) (maxCountAllowed s)
  /\ (isOverRamLimit s = true ->
      count (enforceMaxCount s) = maxCountAllowed s
      /\ maxCountAllowed s < count s)
  /\ enforceMaxCount (enforceMaxCount s) = enforceMaxCount s.
Proof.
  intros Ht. destruct (maxCountAllowed_bounds s Ht) as (H1 & Hfit & Hnext).
  pose proof (estimatedImageSize_pos s (proj1 Ht)) as Hpos.
  unfold enforceMaxCount.
  destruct (Z.ltb_spec (maxCountAllowed s) (count s)) as [Hgt | Hle].
  - assert (Hok : isOverRamLimit (set_count (maxCountAllowed s) s) = false).
    { unfold isOverRamLimit, totalEstimatedBytes. apply Z.ltb_ge.
      change (maxCountAllowed s * estimatedImageSize s <= MAX_RAM_BYTES). lia. }
    split; [exact Hok |]. split; [cbn [count set_count]; lia |].
    split; [intros _; cbn [count set_count]; lia |].
    change (maxCountAllowed (set_count (maxCountAllowed s) s))
      with (maxCountAllowed s).
    cbn [count set_count]. by rewrite Z.ltb_irrefl.
  - assert (Hok : isOverRamLimit s = false).
    { unfold isOverRamLimit, totalEstimatedBytes. apply Z.ltb_ge. nia. }
    split; [exact Hok |]. split; [lia |].
    split; [rewrite Hok; discriminate |].
    by destruct (Z.ltb_spec (maxCountAllowed s) (count s)); [lia |].
Qed.

Section Oversized.
Context `{Platform}.

(** X17. The floor of 1 in the allowed maximum cannot rescue a target
    above the ceiling: with at least one image requested the state stays
    over the limit after the watcher, and the request is rejected. *)
Theorem oversized_target_rejected (clicks : nat -> bool) (s : State) (t : nat) :
  MAX_RAM_BYTES < targetSize s -> 1 <= count s ->
  maxCountAllowed s = 1
  /\ isOverRamLimit (enforceMaxCount s) = true
  /\ generateImages forge clicks (enforceMaxCount s) t
     = Returned (enforceMaxCount s).
Proof.
  intros Hbig Hc.
  assert (He : estimatedImageSize s = targetSize s).
  { unfold estimatedImageSize, MAX_RAM_BYTES in *.
    destruct (Z.eqb_spec (targetSize s) 0); lia. }
  assert (Hm : maxCountAllowed s = 1).
  { unfold maxCountAllowed. rewrite He, Z.div_small; [done |].
    unfold MAX_RAM_BYTES in *. lia. }
  assert (Hover : isOverRamLimit (enforceMaxCount s) = true).
  { unfold enforceMaxCount. rewrite Hm.
    destruct (Z.ltb_spec 1 (count s)) as [Hgt | Hle];
      unfold isOverRamLimit, totalEstimatedBytes; apply Z.ltb_lt.
    - change (MAX_RAM_BYTES < 1 * estimatedImageSize s). lia.
    - replace (count s) with 1 by lia. lia. }
  split; [exact Hm |]. split; [exact Hover |].
  unfold generateImages, rejected. by rewrite Hover.
Qed.

End Oversized.

(** X18. In [forge] a count preset never asks for more than fits: for
    every target size up to the ceiling the state after the click is not
    over the limit and the watcher has nothing left to do. *)
Theorem clickPreset_fits (preset : Z) (s : State) :
  0 <= targetSize s <= MAX_RAM_BYTES ->
  count (clickPreset forge preset s) = Z.min preset (maxCountAllowed s)
  /\ isOverRamLimit (clickPreset forge preset s) = false
  /\ enforceMaxCount (clickPreset forge preset s) = clickPreset forge preset s.
Proof.
  intros Ht. destruct (maxCountAllowed_bounds s Ht) as (H1 & Hfit & _).
  pose proof (estimatedImageSize_pos s (proj1 Ht)) as Hpos.
  split; [reflexivity |].
  assert (Hok : isOverRamLimit (clickPreset forge preset s) = false).
  { unfold isOverRamLimit, totalEstimatedBytes. apply Z.ltb_ge.
    change (Z.min preset (maxCountAllowed s) * estimatedImageSize s
            <= MAX_RAM_BYTES). nia. }
  split; [exact Hok |].
  unfold enforceMaxCount.
  change (maxCountAllowed (clickPreset forge preset s)) with (maxCountAllowed s).
  cbn [count clickPreset set_count].
  by destruct (Z.ltb_spec (maxCountAllowed s) (Z.min preset (maxCountAllowed s)));
    [lia |].
Qed.

Lemma maxCountAllowed_largest_witness :
  let s := mkState 1 jpg true 1920 1080 false None 0 false false 0 [] in
  maxCountAllowed s = 1706
  /\ isOverRamLimit (set_count 1706 s) = false
  /\ isOverRamLimit (set_count 1707 s) = true.
Proof.
  intros s.
  assert (Ht : 0 <= targetSize s <= MAX_RAM_BYTES) by (cbn; unfold MAX_RAM_BYTES; lia).
  destruct (maxCountAllowed_largest s Ht) as (_ & Hfit & Hnext).
  split; [reflexivity |]. split; [| exact Hnext].
  apply Hfit. vm_compute. discriminate.
Defined.

Lemma enforceMaxCount_clamps_witness :
  let s := mkState 2000 jpg true 1920 1080 false None (10 * 1024 * 1024)
                   false false 0 [] in
  isOverRamLimit s = true
  /\ count (enforceMaxCount s) = 50
  /\ isOverRamLimit (enforceMaxCount s) = false.
Proof.
  intros s.
  assert (Ht : 0 <= targetSize s <= MAX_RAM_BYTES) by (cbn; unfold MAX_RAM_BYTES; lia).
  split; [reflexivity |]. split; [reflexivity |].
  apply (enforceMaxCount_clamps s Ht).
Defined.

Lemma oversized_target_rejected_witness :
  let s := mkState 3 jpg true 1920 1080 false None (600 * 1024 * 1024)
                   false false 0 [] in
  count (enforceMaxCount s) = 1
  /\ @generateImages samplePlatform forge noClicks (enforceMaxCount s) 0
     = Returned (enforceMaxCount s).
Proof.
  intros s. split; [reflexivity |].
  apply (@oversized_target_rejected samplePlatform noClicks s 0%nat);
    cbn; unfold MAX_RAM_BYTES; lia.
Defined.

Lemma clickPreset_fits_witness :
  let s := mkState 1 jpg true 1920 1080 false None (10 * 1024 * 1024)
                   false false 0 [] in
  count (clickPreset forge 100 s) = 50
  /\ isOverRamLimit (clickPreset forge 100 s) = false.
Proof.
  intros s.
  assert (Ht : 0 <= targetSize s <= MAX_RAM_BYTES) by (cbn; unfold MAX_RAM_BYTES; lia).
  split; [reflexivity |].
  apply (clickPreset_fits 100 s Ht).
Defined.

(** ** Metadata and colour of a unit *)

Section Fabricated.
Context `{Platform}.

Lemma renderUnit_exif_origin (p : Page) (s : State) (i t t' : nat)
    (img : GenImg) (e : ExifObj) :
  renderUnit p s i t = (Some img, t') -> exif img = Some e ->
  exists k : nat, e = (randomExif k).1.
Proof.
  unfold renderUnit, bind.
  destruct (pickSize s t) as [[[w h] |] t1]; [| by unfold ret].
  destruct (draw randomUUID_head t1) as [u t2].
  destruct (backgroundFill p s t2) as [fill t3].
  destruct (withExif s && Format_eqb (format s) jpg).
  - destruct (randomExif t3) as [e0 t4] eqn:E0. unfold ret. cbn [fst snd].
    destruct (draw createObjectURL t4) as [hd t5].
    intros [= <- <-]. cbn [exif]. intros [= <-]. exists t3. by rewrite E0.
  - unfold ret. cbn [fst snd].
    destruct (draw createObjectURL t3) as [hd t5].
    intros [= <- <-]. cbn [exif]. done.
Qed.

(** X19. With draws in the unit interval, the latitude stored in the
    block of any item of a run encodes an angle between 0 and 91
    degrees, and the longitude one between 0 and 181 (bounds that the
    rounded sum of the code keeps as well). *)
Theorem item_angles_range (p : Page) (clicks : nat -> bool) (s : State)
    (t : nat) (img : GenImg) (e : ExifObj) :
  unit_draws ->
  rejected p s = false ->
  img ∈ images (final (generateImages p clicks s t)) ->
  exif img = Some e ->
  exists lat lon : Q,
    GPSLatitude e = piexif_degToDmsRational lat
    /\ (0 <= lat)%Q /\ (lat <= 91)%Q
    /\ GPSLongitude e = piexif_degToDmsRational lon
    /\ (0 <= lon)%Q /\ (lon <= 181)%Q.
Proof.
  intros Hd Hrej Hin Hex.
  destruct (item_from_unit p clicks s t img Hrej Hin) as (i & t0 & t1 & E).
  destruct (renderUnit_exif_origin p s i t0 t1 img e E Hex) as (k & ->).
  destruct (randomDegrees_range 90 (3 + k) Hd ltac:(lia))
    as (d1 & lat & E1 & _ & _ & Hlat0 & Hlat1).
  destruct (randomDegrees_range 180 (5 + k) Hd ltac:(lia))
    as (d2 & lon & E2 & _ & _ & Hlon0 & Hlon1).
  exists lat, lon.
  destruct (randomExif_coordinates k) as (Ela & Elo & _).
  rewrite Ela, Elo, E1, E2. cbn [fst].
  repeat split; try assumption; by apply Qlt_le_weak.
Qed.

(** X20. The background is the chosen colour, taken as it is and without
    a draw, exactly when one is set and not empty; with no colour (after
    [resetColor], or with the empty text the page starts with) it is an
    [hsl] colour whose hue is one draw in 0..359. *)
Theorem backgroundFill_spec (p : Page) (s : State) (t : nat) :
  (forall c : string, bgColor s = Some c -> c <> "" ->
     backgroundFill p s t = (c, t))
  /\ (unit_draws -> bgColor s = None \/ bgColor s = Some "" ->
      exists hue : Z,
        0 <= hue <= 359
        /\ backgroundFill p s t = ("hsl(" +:+ pretty hue +:+ swatchTail p, S t))
  /\ (unit_draws ->
      exists hue : Z,
        0 <= hue <= 359
        /\ backgroundFill p (resetColor s) t
           = ("hsl(" +:+ pretty hue +:+ swatchTail p, S t)).
Proof.
  assert (Hhue : unit_draws ->
            exists hue : Z,
              0 <= hue <= 359
              /\ (let* hue := randInt 0 359 in
                  ret ("hsl(" +:+ pretty hue +:+ swatchTail p)) t
                 = ("hsl(" +:+ pretty hue +:+ swatchTail p, S t)).
  { intros Hd. destruct (randInt_spec Hd 0 359 t ltac:(lia)) as (hue & E & Hr).
    exists hue. split; [exact Hr |]. unfold bind. by rewrite E. }
  split; [| split].
  - intros c Hc Hne. unfold backgroundFill. rewrite Hc.
    destruct c; [done | reflexivity].
  - intros Hd [Hc | Hc]; unfold backgroundFill; rewrite Hc; by apply Hhue.
  - intros Hd. by apply Hhue.
Qed.

End Fabricated.

Lemma item_angles_range_witness :
  exists (img : GenImg) (e : ExifObj) (lat : Q),
    img ∈ images (final (@generateImages samplePlatform forge noClicks sampleState 0))
    /\ exif img = Some e
    /\ GPSLatitude e = @piexif_degToDmsRational samplePlatform lat
    /\ (lat <= 91)%Q.
Proof.
  assert (Hin : exists (img : GenImg) (e : ExifObj),
             img ∈ images (final (@generateImages samplePlatform forge noClicks
                                     sampleState 0))
             /\ exif img = Some e).
  { vm_compute. eexists. eexists. split; [apply list_elem_of_here | reflexivity]. }
  destruct Hin as (img & e & Hin & Hex).
  destruct (@item_angles_range samplePlatform forge noClicks sampleState 0%nat
              img e sample_unit_draws eq_refl Hin Hex)
    as (lat & lon & Ela & _ & Hlat & _).
  exists img, e, lat. repeat split; assumption.
Defined.

Lemma backgroundFill_spec_witness :
  @backgroundFill samplePlatform forge sampleState 0%nat = ("#ffffff", 0%nat)
  /\ exists hue : Z,
       0 <= hue <= 359
       /\ @backgroundFill samplePlatform forge initialState 0%nat
          = ("hsl(" +:+ pretty hue +:+ swatchTail forge, 1%nat).
Proof.
  split.
  - apply (proj1 (@backgroundFill_spec samplePlatform forge sampleState 0%nat));
      [reflexivity | discriminate].
  - apply (proj1 (proj2 (@backgroundFill_spec samplePlatform forge initialState
                           0%nat)) sample_unit_draws).
    right. reflexivity.
Defined.

Section MoreItems.
Context `{Platform}.

Lemma randomExif_constants (k : nat) :
  Software (randomExif k).1 = "Placeholder Forge"
  /\ GPSLatitudeRef (randomExif k).1 = "N"
  /\ GPSLongitudeRef (randomExif k).1 = "E".
Proof. repeat split. Qed.

(** X21. Every metadata block a run produces carries the software tag
    of the page and places the image north of the equator and east of
    Greenwich: the references are never S or W. *)
Theorem item_hemisphere (p : Page) (clicks : nat -> bool) (s : State)
    (t : nat) (img : GenImg) (e : ExifObj) :
  rejected p s = false ->
  img ∈ images (final (generateImages p clicks s t)) ->
  exif img = Some e ->
  Software e = "Placeholder Forge"
  /\ GPSLatitudeRef e = "N" /\ GPSLongitudeRef e = "E".
Proof.
  intros Hrej Hin Hex.
  destruct (item_from_unit p clicks s t img Hrej Hin) as (i & t0 & t1 & E).
  destruct (renderUnit_exif_origin p s i t0 t1 img e E Hex) as (k & ->).
  apply randomExif_constants.
Qed.

(** X22. Cancelling only cuts the run short: whatever the clicks and the
    draws, the list a run leaves is an initial part of the list the same
    run leaves without any click. *)
Theorem cancellation_keeps_prefix (p : Page) (clicks : nat -> bool) (s : State)
    (t : nat) :
  rejected p s = false ->
  images (final (generateImages p clicks s t))
    `prefix_of` images (final (generateImages p (fun _ => false) s t)).
Proof.
  intros Hrej. rewrite !generateImages_images by done.
  rewrite executed_noClicks.
  replace (take (Z.to_nat (count s)) (units p s (Z.to_nat (count s)) 0 t))
    with (units p s (Z.to_nat (count s)) 0 t)
    by (symmetry; apply firstn_all2, units_length_le).
  apply prefix_take.
Qed.

(** X23. At any point of a session no two held images share a file
    name. *)
Theorem held_names_distinct (s : State) (i j : nat) (a b : GenImg) :
  reachable s ->
  images s !! i = Some a -> images s !! j = Some b ->
  name a = name b -> i = j.
Proof.
  intros Hr Ha Hb Hn.
  pose proof (reachable_names_NoDup s Hr) as Hnd.
  eapply (proj1 (NoDup_alt _) Hnd i j (name a)).
  - by rewrite list_lookup_fmap, Ha.
  - by rewrite list_lookup_fmap, Hb, Hn.
Qed.

End MoreItems.

Lemma item_hemisphere_witness :
  exists (img : GenImg) (e : ExifObj),
    img ∈ images (final (@generateImages samplePlatform forge noClicks sampleState 0))
    /\ exif img = Some e
    /\ GPSLatitudeRef e = "N" /\ GPSLongitudeRef e = "E".
Proof.
  assert (Hin : exists (img : GenImg) (e : ExifObj),
             img ∈ images (final (@generateImages samplePlatform forge noClicks
                                     sampleState 0))
             /\ exif img = Some e).
  { vm_compute. eexists. eexists. split; [apply list_elem_of_here | reflexivity]. }
  destruct Hin as (img & e & Hin & Hex).
  destruct (@item_hemisphere samplePlatform forge noClicks sampleState 0%nat
              img e eq_refl Hin Hex) as (_ & Hn & He).
  exists img, e. repeat split; assumption.
Defined.

Lemma cancellation_keeps_prefix_witness :
  images (final (@generateImages samplePlatform forge (fun i => Nat.eqb i 0)
                   sampleState 0))
    `prefix_of` images (final (@generateImages samplePlatform forge (fun _ => false)
                                 sampleState 0)).
Proof.
  apply (@cancellation_keeps_prefix samplePlatform forge (fun i => Nat.eqb i 0)
           sampleState 0%nat).
  reflexivity.
Defined.

Lemma held_names_distinct_witness :
  let s := final (@generateImages samplePlatform forge noClicks sampleState 0) in
  exists a b : GenImg,
    images s !! 0%nat = Some a /\ images s !! 2%nat = Some b /\ name a <> name b.
Proof.
  intros s.
  assert (Hr : @reachable samplePlatform s).
  { unfold reachable. eapply rtc_l; [| apply rtc_once].
    - apply (@step_edit samplePlatform initialState sampleState). reflexivity.
    - apply (@step_generate samplePlatform forge noClicks 0%nat sampleState). }
  assert (Hl : exists a b : GenImg,
             images s !! 0%nat = Some a /\ images s !! 2%nat = Some b).
  { vm_compute. eexists. eexists. split; reflexivity. }
  destruct Hl as (a & b & Ha & Hb).
  exists a, b. split; [exact Ha |]. split; [exact Hb |].
  intros Hn.
  pose proof (@held_names_distinct samplePlatform s 0 2 a b Hr Ha Hb Hn) as E.
  discriminate E.
Defined.
